(** * GateIO exchange wrapper: a shallow embedding of [gateio_wrapper.go]

    The wrapper translates the exchange's REST and websocket payloads into
    the trading domain of the surrounding system.  This development embeds
    the wrapper's functions as Rocq functions and states the properties of
    its specification against them.

    Conventions.
    - A Go [float64] is a primitive binary64 float, with IEEE addition and
      subtraction.
    - A Go [int]/[int64] is a [Z]; where the wrapper does arithmetic on
      an [int] (the paging offset, the counter of a symbol) the wrap-around
      is written out.
    - A Go [map[string]V] is a [gmap string V]; a [range] over it visits the
      entries in an order chosen by the runtime, which is the Section
      variable [range], known only to be a permutation of the entries.
    - A Go result [(v, err)] is the pair [(v, e)] with [e : option error],
      [None] being [nil].
    - Everything that lives in another package (transport calls, caches,
      the currency package, [strconv], [strings]) is a Section variable. *)

From Stdlib Require Import ZArith String Ascii Floats Permutation.
From stdpp Require Import gmap strings list fin_maps.

Local Open Scope Z_scope.
Local Open Scope string_scope.
Set Default Proof Using "Type".

(** ** Go values *)

Abbreviation float64 := PrimFloat.float (only parsing).

(** Go's [==] and [<] on [float64]. *)
Definition feq (x y : float64) : bool := PrimFloat.eqb x y.
Definition flt (x y : float64) : bool := PrimFloat.ltb x y.
Definition fle (x y : float64) : bool := PrimFloat.leb x y.

(** Go's [int] on a 64-bit platform: two's complement wrap-around. *)
Definition wrap_int (z : Z) : Z := (z + 2 ^ 63) mod 2 ^ 64 - 2 ^ 63.

(** Modelled from the spec: the declarations of package [common] are not
    among the sources.  [ErrFunctionNotSupported] is the dedicated
    not-supported error of the specification and [ErrNotYetImplemented] is
    the second sentinel value the wrapper names, a value of its own;
    [errors_New] and [fmt_Errorf] are the values the wrapper itself
    creates; [upstream] is an error value handed back by a collaborator
    (transport, parser, cache).  Go compares error values by identity, so
    a value made by the wrapper is never one a collaborator returned: the
    constructors are disjoint. *)
Inductive error : Type :=
  | ErrFunctionNotSupported
  | ErrNotYetImplemented
  | errors_New (text : string)
  | fmt_Errorf (text : string)
  | upstream (text : string).

#[global] Instance error_eq_dec : EqDecision error.
Proof. solve_decision. Defined.

(** [err.Error()]. *)
Definition Error (e : error) : string :=
  match e with
  | ErrFunctionNotSupported => "unsupported wrapper function"
  | ErrNotYetImplemented => "not yet implemented"
  | errors_New t | fmt_Errorf t | upstream t => t
  end.

(** [time.Time], as far as the wrapper sees it: the zero value, or the
    instant built by [time.Unix]. *)
Inductive Time : Type :=
  | zero_Time
  | time_Unix (sec nsec : Z).

(** Modelled from the spec: package [asset] is not among the sources;
    [asset.Item] is a string type and [asset.Spot] the spot market segment. *)
Abbreviation asset_Item := string (only parsing).
Definition Spot : asset_Item := "spot".

(** Modelled from the spec: package [order] is not among the sources.
    [order.Side], [order.Type] and [order.Status] are string types (the
    wrapper converts strings to them); the constants stand for the sides
    and types the specification names, each spelled as its name in upper
    case. *)
Definition Buy : string := "BUY".
Definition Sell : string := "SELL".
Definition Bid : string := "BID".
Definition Ask : string := "ASK".
Definition Limit : string := "LIMIT".
Definition Market : string := "MARKET".

(** Control flow of a loop body that may [return] early with an error or
    panic on a failed type assertion. *)
Inductive flow (A : Type) : Type :=
  | Next (a : A)
  | Raise (e : error)
  | Panics.
Arguments Next {A} a.
Arguments Raise {A} e.
Arguments Panics {A}.

#[global] Instance flow_ret : MRet flow := @Next.
#[global] Instance flow_bind : MBind flow := fun A B f m =>
  match m with
  | Next a => f a
  | Raise e => Raise e
  | Panics => Panics
  end.

(** [v, err := call; if err != nil { return ..., err }]. *)
Definition try {A} (r : A * option error) : flow A :=
  match r.2 with
  | None => Next r.1
  | Some e => Raise e
  end.

(** A loop over a slice whose body may leave the function. *)
Fixpoint for_each {A S} (body : S → A → flow S) (xs : list A) (s : S) : flow S :=
  match xs with
  | [] => Next s
  | x :: xs' => s' ← body s x; for_each body xs' s'
  end.

(** ** Payloads of the exchange

    Modelled from the spec: the type declarations ([gateio_types.go]) are
    not among the sources.  Each record has the fields the wrapper reads,
    under their names, with the types their uses call for. *)

Module TickerResponse.
Record t := {
  Last : float64; High : float64; Low : float64;
  BaseVolume : float64; QuoteVolume : float64;
  Open : float64; Close : float64
}.
End TickerResponse.

Module OrderbookItem.
Record t := { Price : float64; Amount : float64 }.
End OrderbookItem.

Module Orderbook.
Record t := { Bids : list OrderbookItem.t; Asks : list OrderbookItem.t }.
End Orderbook.

(** An element of a decoded JSON object (an [interface{}]) and the field
    that holds the object ([balance.Locked], [balance.Available]). *)
Inductive jvalue : Type :=
  | jstring (s : string)
  | jother.
Inductive jfield : Type :=
  | jobject (m : gmap string jvalue)
  | jnotobject.

Module BalancesResponse.
Record t := { Locked : jfield; Available : jfield }.
End BalancesResponse.

Module WsBalanceCurrency.
Record t := { Available : float64; Freeze : float64 }.
End WsBalanceCurrency.

Module WsGetBalanceResponse.
Record t := { Result : gmap string WsBalanceCurrency.t }.
End WsGetBalanceResponse.

Module OpenOrder.
Record t := {
  Amount : float64;
  CurrencyPair : string;
  FilledAmount : float64;
  InitialAmount : float64;
  OrderNumber : string;
  Rate : float64;
  Status : string;
  Timestamp : Z;
  Type_ : string
}.
End OpenOrder.

Module OpenOrdersResponse.
Record t := { Orders : list OpenOrder.t }.
End OpenOrdersResponse.

Module WebSocketOrderQueryRecords.
Record t := {
  ID : Z;
  Market : string;
  User : Z;
  Ctime : float64;
  Type_ : Z;
  OrderType : Z;
  Price : float64;
  Amount : float64;
  Left : float64;
  FilledAmount : float64;
  DealFee : float64
}.
End WebSocketOrderQueryRecords.

Module WebSocketOrderQueryResult.
Record t := { WebSocketOrderQueryRecords : list WebSocketOrderQueryRecords.t }.
End WebSocketOrderQueryResult.

Module TradesResponse.
Record t := {
  OrderID : Z; Pair : string; Type_ : string;
  Rate : float64; Amount : float64; TimeUnix : Z
}.
End TradesResponse.

Module TradeHistoryResponse.
Record t := { Trades : list TradesResponse.t }.
End TradeHistoryResponse.

Module SpotNewOrderRequestParams.
Record t := { Amount : float64; Price : float64; Symbol : string; Type_ : string }.
End SpotNewOrderRequestParams.

Module SpotNewOrderResponse.
Record t := { OrderNumber : Z; LeftAmount : float64 }.
End SpotNewOrderResponse.

(** ** The trading domain

    Modelled from the spec: packages [ticker], [orderbook], [account],
    [order] and [withdraw] are not among the sources.  Each record has the
    fields the wrapper reads or writes; a field it leaves alone keeps its
    zero value and is left out.  [P] is [currency.Pair] and [C] is
    [currency.Code]. *)

Module Price.
Record t {P : Type} := {
  Last : float64; High : float64; Low : float64;
  Volume : float64; QuoteVolume : float64;
  Open : float64; Close : float64;
  Pair : P
}.
Arguments t : clear implicits.
End Price.

Module Item.
Record t := { Amount : float64; Price : float64 }.
End Item.

Module Base.
Record t {P : Type} := {
  Pair : P;
  Bids : list Item.t;
  Asks : list Item.t;
  ExchangeName : string;
  AssetType : asset_Item
}.
Arguments t : clear implicits.
End Base.

Module Balance.
Record t {C : Type} := {
  CurrencyName : C;
  TotalValue : float64;
  Hold : float64
}.
Arguments t : clear implicits.
End Balance.

Module SubAccount.
Record t {C : Type} := { Currencies : list (Balance.t C) }.
Arguments t : clear implicits.
End SubAccount.

Module Holdings.
Record t {C : Type} := { Exchange : string; Accounts : list (SubAccount.t C) }.
Arguments t : clear implicits.
End Holdings.

Module Detail.
Record t {P : Type} := {
  Exchange : string;
  AccountID : string;
  ID : string;
  CurrencyPair : P;
  OrderSide : string;
  OrderType : string;
  OrderDate : Time;
  Status : string;
  Price : float64;
  Amount : float64;
  ExecutedAmount : float64;
  RemainingAmount : float64;
  Fee : float64
}.
Arguments t : clear implicits.
End Detail.

Module Submit.
Record t {P : Type} := {
  Pair : P; OrderSide : string; Price : float64; Amount : float64
}.
Arguments t : clear implicits.
End Submit.

Module SubmitResponse.
Record t := { IsOrderPlaced : bool; FullyMatched : bool; OrderID : string }.
End SubmitResponse.

Module Cancel.
Record t {P : Type} := { OrderID : string; CurrencyPair : P; AssetType : asset_Item }.
Arguments t : clear implicits.
End Cancel.

Module CancelAllResponse.
Record t := { Status : gmap string string }.
End CancelAllResponse.

Module GetOrdersRequest.
Record t {P : Type} := {
  OrderType : string;
  OrderSide : string;
  StartTicks : Time;
  EndTicks : Time;
  Currencies : list P
}.
Arguments t : clear implicits.
End GetOrdersRequest.

Module CryptoRequest.
Record t {C : Type} := { Currency : C; Address : string; Amount : float64 }.
Arguments t : clear implicits.
End CryptoRequest.

(** ** Operations that do not depend on any collaborator *)

(** [GetFundingHistory]: [return nil, common.ErrFunctionNotSupported]. *)
Definition GetFundingHistory {FundHistory : Type} : list FundHistory * option error :=
  ([], Some ErrFunctionNotSupported).

(** [GetExchangeHistory]: [return nil, common.ErrNotYetImplemented]. *)
Definition GetExchangeHistory {P TradeHistory : Type}
    (p : P) (assetType : asset_Item) : list TradeHistory * option error :=
  ([], Some ErrNotYetImplemented).

(** [WithdrawFiatFunds]: [return "", common.ErrFunctionNotSupported]. *)
Definition WithdrawFiatFunds {FiatRequest : Type}
    (withdrawRequest : FiatRequest) : string * option error :=
  ("", Some ErrFunctionNotSupported).

(** [WithdrawFiatFundsToInternationalBank]. *)
Definition WithdrawFiatFundsToInternationalBank {FiatRequest : Type}
    (withdrawRequest : FiatRequest) : string * option error :=
  ("", Some ErrFunctionNotSupported).

(** [ModifyOrder]. *)
Definition ModifyOrder {Modify : Type} (action : Modify) : string * option error :=
  ("", Some ErrFunctionNotSupported).

(** ** Stand-ins for the collaborators, used by the examples

    The examples at the end of the file run the wrapper on concrete
    payloads.  There [currency.Pair] and [currency.Code] are their string
    forms, the caches are the list of the tickers stored so far, and the
    library functions are the following stand-ins, which agree with Go on
    the inputs the examples use. *)

Module Sample.

(** [strings.EqualFold] on ASCII strings. *)
Definition lower (c : ascii) : ascii :=
  let n := nat_of_ascii c in
  if ((65 <=? n) && (n <=? 90))%nat then ascii_of_nat (n + 32) else c.

Fixpoint EqualFold (s t : string) : bool :=
  match s, t with
  | EmptyString, EmptyString => true
  | String a s', String b t' => Ascii.eqb (lower a) (lower b) && EqualFold s' t'
  | _, _ => false
  end.

(** [strconv.ParseFloat] on the amounts of the examples. *)
Definition ParseFloat (s : string) : float64 * option error :=
  if decide (s = "0.5") then (0.5%float, None)
  else if decide (s = "1.0") then (1%float, None)
  else if decide (s = "2.0") then (2%float, None)
  else (0%float, Some (upstream "strconv.ParseFloat: invalid syntax")).

(** [convert.SplitFloatDecimals] on the creation time of the examples. *)
Definition SplitFloatDecimals (x : float64) : (Z * Z) * option error :=
  if feq x 1574245845%float then ((1574245845, 0), None)
  else ((0, 0), Some (upstream "strconv.ParseInt: invalid syntax")).

(** [strconv.FormatInt(_, 10)] on the ids of the examples. *)
Definition FormatInt (z : Z) : string :=
  if decide (z = 7) then "7" else if decide (z = 42) then "42" else "0".

(** Package [ticker]: the store keeps every ticker it was given, the
    newest first, and a lookup returns the newest one of the pair. *)
Definition ProcessTicker (name : string) (t : Price.t string) (a : asset_Item)
    (st : list (Price.t string)) : list (Price.t string) * option error :=
  (t :: st, None).

Definition no_Price : Price.t string :=
  {| Price.Last := 0; Price.High := 0; Price.Low := 0; Price.Volume := 0;
     Price.QuoteVolume := 0; Price.Open := 0; Price.Close := 0; Price.Pair := "" |}.

Definition GetTicker (name : string) (p : string) (a : asset_Item)
    (st : list (Price.t string)) : Price.t string * option error :=
  match List.find (λ t, bool_decide (Price.Pair t = p)) st with
  | Some t => (t, None)
  | None => (no_Price, Some (upstream "no tickers for pair"))
  end.

(** Filters that keep every order. *)
Definition keep_all {A B C : Type} (orders : list A) (_ : B) (_ : C) : list A := orders.
Definition keep_side {A B : Type} (orders : list A) (_ : B) : list A := orders.

(** A websocket order record: 10 ordered, 4 filled, and a remaining
    amount of 7 reported by the exchange; [side] and [type] are its two
    numeric flags. *)
Definition record (side type : Z) : WebSocketOrderQueryRecords.t :=
  {| WebSocketOrderQueryRecords.ID := 42;
     WebSocketOrderQueryRecords.Market := "btc_usdt";
     WebSocketOrderQueryRecords.User := 7;
     WebSocketOrderQueryRecords.Ctime := 1574245845;
     WebSocketOrderQueryRecords.Type_ := side;
     WebSocketOrderQueryRecords.OrderType := type;
     WebSocketOrderQueryRecords.Price := 9000;
     WebSocketOrderQueryRecords.Amount := 10;
     WebSocketOrderQueryRecords.Left := 7;
     WebSocketOrderQueryRecords.FilledAmount := 4;
     WebSocketOrderQueryRecords.DealFee := 0 |}.

(** A page source that serves the given pages, one per offset
    0, 100, 200, ..., and fails with [e] past the last of them. *)
Definition served (pages : list (list WebSocketOrderQueryRecords.t)) (e : error)
    (orderType : string) (offset limit : Z)
    : WebSocketOrderQueryResult.t * option error :=
  match pages !! Z.to_nat (offset / 100) with
  | Some page => ({| WebSocketOrderQueryResult.WebSocketOrderQueryRecords := page |}, None)
  | None => ({| WebSocketOrderQueryResult.WebSocketOrderQueryRecords := [] |}, Some e)
  end.

(** Pages of the given sizes. *)
Definition pages_of (sizes : list nat) : list (list WebSocketOrderQueryRecords.t) :=
  map (λ n, replicate n (record 0 1)) sizes.

(** An open order as the REST endpoint lists it. *)
Definition open_order (id status : string) (initial filled : float64) : OpenOrder.t :=
  {| OpenOrder.Amount := initial;
     OpenOrder.CurrencyPair := "btc_usdt";
     OpenOrder.FilledAmount := filled;
     OpenOrder.InitialAmount := initial;
     OpenOrder.OrderNumber := id;
     OpenOrder.Rate := 9000;
     OpenOrder.Status := status;
     OpenOrder.Timestamp := 1574245845;
     OpenOrder.Type_ := "sell" |}.

Definition ticker (last : float64) : TickerResponse.t :=
  {| TickerResponse.Last := last; TickerResponse.High := 0; TickerResponse.Low := 0;
     TickerResponse.BaseVolume := 100; TickerResponse.QuoteVolume := 5;
     TickerResponse.Open := 0; TickerResponse.Close := 0 |}.

(** A transport error. *)
Definition timeout : error := upstream "context deadline exceeded".

(** [strings.ToUpper] on ASCII strings. *)
Definition upper (c : ascii) : ascii :=
  let n := nat_of_ascii c in
  if ((97 <=? n) && (n <=? 122))%nat then ascii_of_nat (n - 32) else c.

Fixpoint ToUpper (s : string) : string :=
  match s with
  | EmptyString => EmptyString
  | String c s' => String (upper c) (ToUpper s')
  end.

(** [strings.ToLower] on ASCII strings. *)
Fixpoint ToLower (s : string) : string :=
  match s with
  | EmptyString => EmptyString
  | String c s' => String (lower c) (ToLower s')
  end.

(** [strconv.ParseInt] on the order id of the examples. *)
Definition ParseInt (s : string) : Z * option error :=
  if decide (s = "42") then (42, None)
  else (0, Some (upstream "strconv.ParseInt: invalid syntax")).

(** A pair built from its string form. *)
Definition NewPairDelimiter (s delimiter : string) : string := s.

(** A request for the orders of every pair, of both sides. *)
Definition request : GetOrdersRequest.t string :=
  {| GetOrdersRequest.OrderType := "LIMIT";
     GetOrdersRequest.OrderSide := "";
     GetOrdersRequest.StartTicks := zero_Time;
     GetOrdersRequest.EndTicks := zero_Time;
     GetOrdersRequest.Currencies := [] |}.

(** The REST endpoint of the open orders: answering with [orders], or
    failing with [e]. *)
Definition open_orders (orders : list OpenOrder.t) (currPair : string)
    : OpenOrdersResponse.t * option error :=
  ({| OpenOrdersResponse.Orders := orders |}, None).

Definition no_open_orders (e : error) (currPair : string)
    : OpenOrdersResponse.t * option error :=
  ({| OpenOrdersResponse.Orders := [] |}, Some e).

(** A cancel request and a submitted order. *)
Definition cancel : Cancel.t string :=
  {| Cancel.OrderID := "42"; Cancel.CurrencyPair := "btc_usdt"; Cancel.AssetType := Spot |}.

Definition submit : Submit.t string :=
  {| Submit.Pair := "btc_usdt"; Submit.OrderSide := Buy;
     Submit.Price := 9000; Submit.Amount := 1 |}.

Definition withdrawal : CryptoRequest.t string :=
  {| CryptoRequest.Currency := "BTC"; CryptoRequest.Address := "1A1zP1";
     CryptoRequest.Amount := 1 |}.

(** Caches that accept everything. *)
Definition accept {A S : Type} (_ : A) (st : S) : S * option error := (st, None).

Definition no_Base : Base.t string :=
  {| Base.Pair := ""; Base.Bids := []; Base.Asks := [];
     Base.ExchangeName := ""; Base.AssetType := "" |}.

Definition orderbook_Get (name p : string) (a : asset_Item) (st : list (Price.t string))
    : Base.t string * option error :=
  (no_Base, Some (upstream "no orderbooks for pair")).

(** A transport on which every call fails with [timeout]. *)
Module Down.

Definition GetTickers : gmap string TickerResponse.t * option error :=
  (∅, Some timeout).
Definition GetOrderbook (symbol : string) : Orderbook.t * option error :=
  ({| Orderbook.Bids := []; Orderbook.Asks := [] |}, Some timeout).
Definition GetBalances : BalancesResponse.t * option error :=
  ({| BalancesResponse.Locked := jnotobject;
      BalancesResponse.Available := jnotobject |}, Some timeout).
Definition wsGetBalance (currencies : list string) : WsGetBalanceResponse.t * option error :=
  ({| WsGetBalanceResponse.Result := ∅ |}, Some timeout).
Definition SpotNewOrder (params : SpotNewOrderRequestParams.t)
    : SpotNewOrderResponse.t * option error :=
  ({| SpotNewOrderResponse.OrderNumber := 0;
      SpotNewOrderResponse.LeftAmount := 0 |}, Some timeout).
Definition CancelExistingOrder (id : Z) (symbol : string) : bool * option error :=
  (false, Some timeout).
Definition CancelAllExistingOrders (type : Z) (symbol : string) : option error :=
  Some timeout.
Definition GetCryptoDepositAddress (currency : string) : string * option error :=
  ("", Some timeout).
Definition WithdrawCrypto (currency address : string) (amount : float64)
    : string * option error :=
  ("", Some timeout).
Definition GetTradeHistory (symbol : string) : TradeHistoryResponse.t * option error :=
  ({| TradeHistoryResponse.Trades := [] |}, Some timeout).

End Down.

(** A websocket record whose creation time does not split. *)
Definition undated : WebSocketOrderQueryRecords.t :=
  {| WebSocketOrderQueryRecords.ID := 7;
     WebSocketOrderQueryRecords.Market := "btc_usdt";
     WebSocketOrderQueryRecords.User := 7;
     WebSocketOrderQueryRecords.Ctime := 0;
     WebSocketOrderQueryRecords.Type_ := 0;
     WebSocketOrderQueryRecords.OrderType := 1;
     WebSocketOrderQueryRecords.Price := 9000;
     WebSocketOrderQueryRecords.Amount := 10;
     WebSocketOrderQueryRecords.Left := 10;
     WebSocketOrderQueryRecords.FilledAmount := 0;
     WebSocketOrderQueryRecords.DealFee := 0 |}.

(** A page source that answers every offset with the same full page. *)
Definition endless (orderType : string) (offset limit : Z)
    : WebSocketOrderQueryResult.t * option error :=
  ({| WebSocketOrderQueryResult.WebSocketOrderQueryRecords :=
        replicate 100 (record 0 1) |}, None).

(** A ticker store that rejects every ticker. *)
Definition reject (name : string) (t : Price.t string) (a : asset_Item)
    (st : list (Price.t string)) : list (Price.t string) * option error :=
  (st, Some (upstream "ticker rejected")).

(** The trade history of a pair: one trade. *)
Definition GetTradeHistory (symbol : string) : TradeHistoryResponse.t * option error :=
  ({| TradeHistoryResponse.Trades :=
        [{| TradesResponse.OrderID := 42; TradesResponse.Pair := symbol;
            TradesResponse.Type_ := "buy"; TradesResponse.Rate := 9000;
            TradesResponse.Amount := 1; TradesResponse.TimeUnix := 1574245845 |}] |},
   None).

(** An order book snapshot with two bids and one ask. *)
Definition snapshot : Orderbook.t :=
  {| Orderbook.Bids := [{| OrderbookItem.Price := 9000; OrderbookItem.Amount := 1 |};
                        {| OrderbookItem.Price := 8999; OrderbookItem.Amount := 2 |}];
     Orderbook.Asks := [{| OrderbookItem.Price := 9001; OrderbookItem.Amount := 3 |}] |}.

(** The balances of the websocket: 1 BTC available and 0.5 BTC frozen. *)
Definition ws_balances : WsGetBalanceResponse.t :=
  {| WsGetBalanceResponse.Result :=
       {["BTC" := {| WsBalanceCurrency.Available := 1;
                     WsBalanceCurrency.Freeze := 0.5 |}]} |}.

(** A fee calculation with one rate for every request. *)
Definition flat_fee {B : Type} (feeBuilder : B) : float64 * option error :=
  (0.5%float, None).

End Sample.

(** ** The wrapper *)

Section Wrapper.

(** [currency.Pair], [currency.Code], and the state of the caches kept by
    packages [ticker], [orderbook] and [account]. *)
Context {Pair Code Store : Type}.
Context `{!EqDecision Code}.

(** Package [currency]. *)
Variable Pair_String : Pair → string.
Variable NewPairDelimiter : string → string → Pair.
Variable NewPairFromString : string → Pair.
Variable zero_Pair : Pair.
Variable NewCode : string → Code.
Variable Code_String : Code → string.

(** Go's standard library: [strings.EqualFold], [strings.ToUpper],
    [strings.ToLower], [strconv.ParseFloat(_, 64)],
    [strconv.ParseInt(_, 10, 64)], [strconv.FormatInt(_, 10)]. *)
Variable EqualFold : string → string → bool.
Variable ToUpper : string → string.
Variable ToLower : string → string.
Variable ParseFloat : string → float64 * option error.
Variable ParseInt : string → Z * option error.
Variable FormatInt : Z → string.

(** The order in which the runtime visits a map. *)
Variable range : ∀ V : Type, gmap string V → list (string * V).
Hypothesis range_perm : ∀ (V : Type) (m : gmap string V), range V m ≡ₚ map_to_list m.

(** The receiver [g]: its name, its pair format, its enabled pairs and
    whether the authenticated websocket can serve the wrapper. *)
Variable Name : string.
Variable Delimiter : string.
Variable GetEnabledPairs : asset_Item → list Pair.
Variable FormatExchangeCurrency : Pair → asset_Item → Pair.
Variable CanUseAuthenticatedWebsocketForWrapper : bool.
Variable gateioGenerateAddress : string.

(** The transport ([gateio.go], [gateio_websocket.go]). *)
Variable GetSymbols : list string * option error.
Variable GetTickers : gmap string TickerResponse.t * option error.
Variable GetOrderbook : string → Orderbook.t * option error.
Variable GetBalances : BalancesResponse.t * option error.
Variable wsGetBalance : list string → WsGetBalanceResponse.t * option error.
Variable GetOpenOrders : string → OpenOrdersResponse.t * option error.
Variable wsGetOrderInfo : string → Z → Z → WebSocketOrderQueryResult.t * option error.
Variable SpotNewOrder : SpotNewOrderRequestParams.t → SpotNewOrderResponse.t * option error.
Variable CancelExistingOrder : Z → string → bool * option error.
Variable CancelAllExistingOrders : Z → string → option error.
Variable GetCryptoDepositAddress : string → string * option error.
Variable WithdrawCrypto : string → string → float64 → string * option error.
Variable GetTradeHistory : string → TradeHistoryResponse.t * option error.
Variable wsServerSignIn : option error.

(** Packages [ticker], [orderbook], [account], [order] and [convert]. *)
Variable ProcessTicker : string → Price.t Pair → asset_Item → Store → Store * option error.
Variable GetTicker : string → Pair → asset_Item → Store → Price.t Pair * option error.
Variable orderbook_Process : Base.t Pair → Store → Store * option error.
Variable orderbook_Get : string → Pair → asset_Item → Store → Base.t Pair * option error.
Variable account_Process : Holdings.t Code → Store → Store * option error.
Variable Validate : Submit.t Pair → option error.
Variable FilterOrdersByTickRange : list (Detail.t Pair) → Time → Time → list (Detail.t Pair).
Variable FilterOrdersBySide : list (Detail.t Pair) → string → list (Detail.t Pair).
Variable SplitFloatDecimals : float64 → (Z * Z) * option error.

(** What a call leaves behind: the caches, the tickers handed to
    [ticker.ProcessTicker] and the errors handed to [log.Error]. *)
Record World := {
  store : Store;
  published : list (Price.t Pair);
  logged : list error
}.

(** *** UpdateTicker *)

Definition zero_Price : Price.t Pair :=
  {| Price.Last := 0; Price.High := 0; Price.Low := 0; Price.Volume := 0;
     Price.QuoteVolume := 0; Price.Open := 0; Price.Close := 0;
     Price.Pair := zero_Pair |}.

(** The [ticker.Price] built from [result[k]] for [pairs[i]]. *)
Definition ticker_of (r : TickerResponse.t) (pair : Pair) : Price.t Pair :=
  {| Price.Last := TickerResponse.Last r;
     Price.High := TickerResponse.High r;
     Price.Low := TickerResponse.Low r;
     Price.Volume := TickerResponse.BaseVolume r;
     Price.QuoteVolume := TickerResponse.QuoteVolume r;
     Price.Open := TickerResponse.Open r;
     Price.Close := TickerResponse.Close r;
     Price.Pair := pair |}.

(** [err = ticker.ProcessTicker(...); if err != nil { log.Error(...) }]. *)
Definition publish (assetType : asset_Item) (w : World) (tickerPrice : Price.t Pair) : World :=
  let '(st, err) := ProcessTicker Name tickerPrice assetType (store w) in
  {| store := st;
     published := published w ++ [tickerPrice];
     logged := match err with Some e => logged w ++ [e] | None => logged w end |}.

(** The inner loop, [for k := range result], for one enabled pair. *)
Definition match_pair (assetType : asset_Item) (pair : Pair)
    (w : World) (kv : string * TickerResponse.t) : World :=
  if EqualFold kv.1 (Pair_String pair)
  then publish assetType w (ticker_of kv.2 pair)
  else w.

Definition UpdateTicker_pair (assetType : asset_Item)
    (result : gmap string TickerResponse.t) (w : World) (pair : Pair) : World :=
  foldl (match_pair assetType pair) w (range _ result).

Definition UpdateTicker (p : Pair) (assetType : asset_Item) (w : World)
    : (Price.t Pair * option error) * World :=
  let tickerPrice := zero_Price in
  let '(result, err) := GetTickers in
  match err with
  | Some e => ((tickerPrice, Some e), w)
  | None =>
      let pairs := GetEnabledPairs assetType in
      let w' := foldl (UpdateTicker_pair assetType result) w pairs in
      (GetTicker Name p assetType (store w'), w')
  end.

(** *** UpdateOrderbook *)

Definition zero_Base : Base.t Pair :=
  {| Base.Pair := zero_Pair; Base.Bids := []; Base.Asks := [];
     Base.ExchangeName := ""; Base.AssetType := "" |}.

Definition level (x : OrderbookItem.t) : Item.t :=
  {| Item.Amount := OrderbookItem.Amount x; Item.Price := OrderbookItem.Price x |}.

Definition UpdateOrderbook (p : Pair) (assetType : asset_Item) (w : World)
    : (Base.t Pair * option error) * World :=
  let curr := Pair_String (FormatExchangeCurrency p assetType) in
  let '(orderbookNew, err) := GetOrderbook curr in
  match err with
  | Some e => ((zero_Base, Some e), w)
  | None =>
      let orderBook :=
        {| Base.Bids := map level (Orderbook.Bids orderbookNew);
           Base.Asks := map level (Orderbook.Asks orderbookNew);
           Base.Pair := p; Base.ExchangeName := Name;
           Base.AssetType := assetType |} in
      let '(st, err) := orderbook_Process orderBook (store w) in
      let w' := {| store := st; published := published w; logged := logged w |} in
      match err with
      | Some e => ((orderBook, Some e), w')
      | None => (orderbook_Get Name p assetType st, w')
      end
  end.

(** *** UpdateAccountInfo *)

(** The websocket path: one balance per entry of [resp.Result]. *)
Definition ws_balance (kv : string * WsBalanceCurrency.t) : Balance.t Code :=
  {| Balance.CurrencyName := NewCode kv.1;
     Balance.TotalValue :=
       (WsBalanceCurrency.Available kv.2 + WsBalanceCurrency.Freeze kv.2)%float;
     Balance.Hold := WsBalanceCurrency.Freeze kv.2 |}.

(** The type assertion [v.(string)]. *)
Definition as_string (v : jvalue) : flow string :=
  match v with
  | jstring s => Next s
  | jother => Panics
  end.

(** The body of [for x := range l]: the record gets [Hold] only, its
    [TotalValue] keeps the zero value. *)
Definition locked_entry (balances : list (Balance.t Code)) (kv : string * jvalue)
    : flow (list (Balance.t Code)) :=
  s ← as_string kv.2;
  lockedF ← try (ParseFloat s);
  Next (balances ++
        [{| Balance.CurrencyName := NewCode kv.1;
            Balance.TotalValue := 0;
            Balance.Hold := lockedF |}])%list.

(** [for i := range balances { if balances[i].CurrencyName == c { ...; break } }]:
    [None] when the loop ends with [updated] still false. *)
Fixpoint set_total (balances : list (Balance.t Code)) (c : Code) (availAmount : float64)
    : option (list (Balance.t Code)) :=
  match balances with
  | [] => None
  | b :: rest =>
      if decide (Balance.CurrencyName b = c)
      then Some ({| Balance.CurrencyName := Balance.CurrencyName b;
                    Balance.TotalValue := (Balance.Hold b + availAmount)%float;
                    Balance.Hold := Balance.Hold b |} :: rest)
      else (b ::.) <$> set_total rest c availAmount
  end.

(** The body of [for x := range v]. *)
Definition available_entry (balances : list (Balance.t Code)) (kv : string * jvalue)
    : flow (list (Balance.t Code)) :=
  s ← as_string kv.2;
  availAmount ← try (ParseFloat s);
  match set_total balances (NewCode kv.1) availAmount with
  | Some balances' => Next balances'
  | None =>
      Next (balances ++
            [{| Balance.CurrencyName := NewCode kv.1;
                Balance.TotalValue := availAmount;
                Balance.Hold := 0 |}])%list
  end.

(** The two type switches of the REST path, on the visiting orders
    [locked] and [available] of the two objects. *)
Definition reconcile (locked available : list (string * jvalue))
    : flow (list (Balance.t Code)) :=
  balances ← for_each locked_entry locked [];
  for_each available_entry available balances.

Definition entries (f : jfield) : list (string * jvalue) :=
  match f with
  | jobject m => range _ m
  | jnotobject => []
  end.

Definition rest_balances (balance : BalancesResponse.t) : flow (list (Balance.t Code)) :=
  reconcile (entries (BalancesResponse.Locked balance))
            (entries (BalancesResponse.Available balance)).

(** [Raise e] is [return account.Holdings{}, e] (on the early returns
    [info] still is the zero value). *)
Definition UpdateAccountInfo (w : World) : flow (Holdings.t Code) * World :=
  let accounts : flow (list (SubAccount.t Code)) :=
    if CanUseAuthenticatedWebsocketForWrapper then
      resp ← try (wsGetBalance []);
      Next [{| SubAccount.Currencies :=
                 map ws_balance (range _ (WsGetBalanceResponse.Result resp)) |}]
    else
      balance ← try GetBalances;
      balances ← rest_balances balance;
      Next [{| SubAccount.Currencies := balances |}] in
  match accounts with
  | Next accs =>
      let info := {| Holdings.Exchange := Name; Holdings.Accounts := accs |} in
      let '(st, err) := account_Process info (store w) in
      (match err with Some e => Raise e | None => Next info end,
       {| store := st; published := published w; logged := logged w |})
  | Raise e => (Raise e, w)
  | Panics => (Panics, w)
  end.

(** *** SubmitOrder, CancelOrder, CancelAllOrders *)

Definition zero_SubmitResponse : SubmitResponse.t :=
  {| SubmitResponse.IsOrderPlaced := false;
     SubmitResponse.FullyMatched := false;
     SubmitResponse.OrderID := "" |}.

(** The request [SubmitOrder] sends for [s]. *)
Definition spotNewOrderRequestParams (s : Submit.t Pair) : SpotNewOrderRequestParams.t :=
  let orderTypeFormat :=
    if decide (Submit.OrderSide s = Buy) then ToLower Buy else ToLower Sell in
  {| SpotNewOrderRequestParams.Amount := Submit.Amount s;
     SpotNewOrderRequestParams.Price := Submit.Price s;
     SpotNewOrderRequestParams.Symbol := Pair_String (Submit.Pair s);
     SpotNewOrderRequestParams.Type_ := orderTypeFormat |}.

Definition SubmitOrder (s : Submit.t Pair) : SubmitResponse.t * option error :=
  match Validate s with
  | Some e => (zero_SubmitResponse, Some e)
  | None =>
      let '(response, err) := SpotNewOrder (spotNewOrderRequestParams s) in
      match err with
      | Some e => (zero_SubmitResponse, Some e)
      | None =>
          ({| SubmitResponse.OrderID :=
                if bool_decide (0 < SpotNewOrderResponse.OrderNumber response)
                then FormatInt (SpotNewOrderResponse.OrderNumber response)
                else "";
              SubmitResponse.FullyMatched :=
                feq (SpotNewOrderResponse.LeftAmount response) 0;
              SubmitResponse.IsOrderPlaced := true |}, None)
      end
  end.

Definition CancelOrder (order : Cancel.t Pair) : option error :=
  let '(orderIDInt, err) := ParseInt (Cancel.OrderID order) in
  match err with
  | Some e => Some e
  | None =>
      (CancelExistingOrder orderIDInt
         (Pair_String (FormatExchangeCurrency (Cancel.CurrencyPair order)
                                              (Cancel.AssetType order)))).2
  end.

(** [uniqueSymbols[openOrders.Orders[i].CurrencyPair]++]. *)
Definition count_symbol (uniqueSymbols : gmap string Z) (o : OpenOrder.t) : gmap string Z :=
  <[OpenOrder.CurrencyPair o :=
      wrap_int (default 0 (uniqueSymbols !! OpenOrder.CurrencyPair o) + 1)]> uniqueSymbols.

(** The body of [for unique := range uniqueSymbols]. *)
Definition cancel_symbol (status : gmap string string) (unique : string) : gmap string string :=
  match CancelAllExistingOrders (-1) unique with
  | Some e => <[unique := Error e]> status
  | None => status
  end.

Definition CancelAllOrders (_ : Cancel.t Pair) : CancelAllResponse.t * option error :=
  let cancelAllOrdersResponse := {| CancelAllResponse.Status := ∅ |} in
  let '(openOrders, err) := GetOpenOrders "" in
  match err with
  | Some e => (cancelAllOrdersResponse, Some e)
  | None =>
      let uniqueSymbols := foldl count_symbol ∅ (OpenOrdersResponse.Orders openOrders) in
      ({| CancelAllResponse.Status :=
            foldl cancel_symbol ∅ (range _ uniqueSymbols).*1 |}, None)
  end.

(** *** GetOrderInfo *)

Definition zero_Detail : Detail.t Pair :=
  {| Detail.Exchange := ""; Detail.AccountID := ""; Detail.ID := "";
     Detail.CurrencyPair := zero_Pair; Detail.OrderSide := "";
     Detail.OrderType := ""; Detail.OrderDate := zero_Time;
     Detail.Status := ""; Detail.Price := 0; Detail.Amount := 0;
     Detail.ExecutedAmount := 0; Detail.RemainingAmount := 0;
     Detail.Fee := 0 |}.

(** The record [GetOrderInfo] fills in for the order it found. *)
Definition order_info (o : OpenOrder.t) : Detail.t Pair :=
  {| Detail.Exchange := Name;
     Detail.AccountID := "";
     Detail.ID := OpenOrder.OrderNumber o;
     Detail.RemainingAmount :=
       (OpenOrder.InitialAmount o - OpenOrder.FilledAmount o)%float;
     Detail.ExecutedAmount := OpenOrder.FilledAmount o;
     Detail.Amount := OpenOrder.InitialAmount o;
     Detail.OrderDate := time_Unix (OpenOrder.Timestamp o) 0;
     Detail.Status := OpenOrder.Status o;
     Detail.Price := OpenOrder.Rate o;
     Detail.CurrencyPair := NewPairDelimiter (OpenOrder.CurrencyPair o) Delimiter;
     Detail.OrderSide :=
       if EqualFold (OpenOrder.Type_ o) Ask then Ask
       else if EqualFold (OpenOrder.Type_ o) Bid then Buy
       else "";
     Detail.OrderType := "";
     Detail.Fee := 0 |}.

(** [for x := range orders.Orders]: the first order with the id. *)
Fixpoint scan_orders (orderID : string) (orders : list OpenOrder.t) : option (Detail.t Pair) :=
  match orders with
  | [] => None
  | o :: rest =>
      if decide (OpenOrder.OrderNumber o ≠ orderID)
      then scan_orders orderID rest
      else Some (order_info o)
  end.

Definition GetOrderInfo (orderID : string) : Detail.t Pair * option error :=
  let orderDetail := zero_Detail in
  let '(orders, err) := GetOpenOrders "" in
  match err with
  | Some _ => (orderDetail, Some (errors_New "failed to get open orders"))
  | None =>
      match scan_orders orderID (OpenOrdersResponse.Orders orders) with
      | Some d => (d, None)
      | None => (orderDetail, Some (fmt_Errorf ("no order found with id " ++ orderID)))
      end
  end.

(** *** GetDepositAddress, WithdrawCryptocurrencyFunds *)

Definition GetDepositAddress (cryptocurrency : Code) (_ : string) : string * option error :=
  let '(addr, err) := GetCryptoDepositAddress (Code_String cryptocurrency) in
  match err with
  | Some e => ("", Some e)
  | None =>
      if decide (addr = gateioGenerateAddress)
      then ("", Some (errors_New
             "new deposit address is being generated, please retry again shortly"))
      else (addr, None)
  end.

Definition WithdrawCryptocurrencyFunds (withdrawRequest : CryptoRequest.t Code)
    : string * option error :=
  WithdrawCrypto (Code_String (CryptoRequest.Currency withdrawRequest))
                 (CryptoRequest.Address withdrawRequest)
                 (CryptoRequest.Amount withdrawRequest).

Definition FetchTradablePairs (asset : asset_Item) : list string * option error :=
  GetSymbols.

Definition AuthenticateWebsocket : option error := wsServerSignIn.

(** *** GetActiveOrders *)

(** The side and the type the websocket path reads off the numeric flags:
    [orderSide := order.Buy; if Type == 1 { orderSide = order.Sell }] and
    [orderType := order.Market; if OrderType == 1 { orderType = order.Limit }]. *)
Definition ws_side (flag : Z) : string := if decide (flag = 1) then Sell else Buy.
Definition ws_type (flag : Z) : string := if decide (flag = 1) then Limit else Market.

(** The record appended for one websocket record, once its creation time
    has been split into seconds and nanoseconds. *)
Definition ws_detail (r : WebSocketOrderQueryRecords.t) (firstNum decNum : Z) : Detail.t Pair :=
  {| Detail.Exchange := Name;
     Detail.AccountID := FormatInt (WebSocketOrderQueryRecords.User r);
     Detail.ID := FormatInt (WebSocketOrderQueryRecords.ID r);
     Detail.CurrencyPair := NewPairFromString (WebSocketOrderQueryRecords.Market r);
     Detail.OrderSide := ws_side (WebSocketOrderQueryRecords.Type_ r);
     Detail.OrderType := ws_type (WebSocketOrderQueryRecords.OrderType r);
     Detail.OrderDate := time_Unix firstNum decNum;
     Detail.Status := "";
     Detail.Price := WebSocketOrderQueryRecords.Price r;
     Detail.Amount := WebSocketOrderQueryRecords.Amount r;
     Detail.ExecutedAmount := WebSocketOrderQueryRecords.FilledAmount r;
     Detail.RemainingAmount := WebSocketOrderQueryRecords.Left r;
     Detail.Fee := WebSocketOrderQueryRecords.DealFee r |}.

(** [for j := range resp.WebSocketOrderQueryRecords]: the accumulator and,
    when [convert.SplitFloatDecimals] fails, the error the function
    returns together with it. *)
Fixpoint ws_append (records : list WebSocketOrderQueryRecords.t)
    (orders : list (Detail.t Pair)) : list (Detail.t Pair) * option error :=
  match records with
  | [] => (orders, None)
  | r :: rest =>
      let '((firstNum, decNum), err) :=
        SplitFloatDecimals (WebSocketOrderQueryRecords.Ctime r) in
      match err with
      | Some e => (orders, Some e)
      | None => ws_append rest (orders ++ [ws_detail r firstNum decNum])%list
      end
  end.

(** How the paging loop is left: by [break], or by [return orders, err]. *)
Inductive loop_exit : Type :=
  | Break (orders : list (Detail.t Pair))
  | Return (orders : list (Detail.t Pair)) (err : error).

(** [for i := 0; ; i += 100].  The loop has no bound of its own, so the
    model takes the number of iterations it may run: [None] when they do
    not suffice.  [calls] records the [(offset, limit)] of every
    [wsGetOrderInfo] call made so far. *)
Fixpoint ws_pages (fuel : nat) (orderType : string) (i : Z)
    (orders : list (Detail.t Pair)) (calls : list (Z * Z))
    : option (loop_exit * list (Z * Z)) :=
  match fuel with
  | O => None
  | S fuel' =>
      let '(resp, err) := wsGetOrderInfo orderType i 100 in
      let calls' := (calls ++ [(i, 100)])%list in
      match err with
      | Some e => Some (Return orders e, calls')
      | None =>
          let records := WebSocketOrderQueryResult.WebSocketOrderQueryRecords resp in
          match ws_append records orders with
          | (orders', Some e) => Some (Return orders' e, calls')
          | (orders', None) =>
              if bool_decide (Z.of_nat (length records) < 100)
              then Some (Break orders', calls')
              else ws_pages fuel' orderType (wrap_int (i + 100)) orders' calls'
          end
      end
  end.

(** The record the REST path appends for an open order. *)
Definition rest_detail (o : OpenOrder.t) : Detail.t Pair :=
  {| Detail.ID := OpenOrder.OrderNumber o;
     Detail.Amount := OpenOrder.Amount o;
     Detail.Price := OpenOrder.Rate o;
     Detail.RemainingAmount := OpenOrder.FilledAmount o;
     Detail.OrderDate := time_Unix (OpenOrder.Timestamp o) 0;
     Detail.OrderSide := ToUpper (OpenOrder.Type_ o);
     Detail.Exchange := Name;
     Detail.CurrencyPair := NewPairDelimiter (OpenOrder.CurrencyPair o) Delimiter;
     Detail.Status := OpenOrder.Status o;
     Detail.AccountID := ""; Detail.OrderType := "";
     Detail.ExecutedAmount := 0; Detail.Fee := 0 |}.

(** [for i := range resp.Orders { if Status != "open" { continue } ... }]. *)
Fixpoint rest_append (os : list OpenOrder.t) (orders : list (Detail.t Pair))
    : list (Detail.t Pair) :=
  match os with
  | [] => orders
  | o :: rest =>
      if decide (OpenOrder.Status o ≠ "open")
      then rest_append rest orders
      else rest_append rest (orders ++ [rest_detail o])%list
  end.

(** The two filters applied before a successful return. *)
Definition filtered (req : GetOrdersRequest.t Pair) (orders : list (Detail.t Pair))
    : list (Detail.t Pair) :=
  FilterOrdersBySide
    (FilterOrdersByTickRange orders (GetOrdersRequest.StartTicks req)
                                    (GetOrdersRequest.EndTicks req))
    (GetOrdersRequest.OrderSide req).

(** [if len(req.Currencies) == 1 { currPair = req.Currencies[0].String() }]. *)
Definition currPair (req : GetOrdersRequest.t Pair) : string :=
  match GetOrdersRequest.Currencies req with
  | [c] => Pair_String c
  | _ => ""
  end.

Definition GetActiveOrders (fuel : nat) (req : GetOrdersRequest.t Pair)
    : option (list (Detail.t Pair) * option error) :=
  if CanUseAuthenticatedWebsocketForWrapper then
    match ws_pages fuel (GetOrdersRequest.OrderType req) 0 [] [] with
    | None => None
    | Some (Return orders e, _) => Some (orders, Some e)
    | Some (Break orders, _) => Some (filtered req orders, None)
    end
  else
    let '(resp, err) := GetOpenOrders (currPair req) in
    match err with
    | Some e => Some ([], Some e)
    | None =>
        Some (filtered req (rest_append (OpenOrdersResponse.Orders resp) []), None)
    end.

(** *** GetOrderHistory *)

Fixpoint fetch_trades (currencies : list Pair) (trades : list TradesResponse.t)
    : list TradesResponse.t * option error :=
  match currencies with
  | [] => (trades, None)
  | c :: rest =>
      let '(resp, err) := GetTradeHistory (Pair_String c) in
      match err with
      | Some e => ([], Some e)
      | None => fetch_trades rest (trades ++ TradeHistoryResponse.Trades resp)%list
      end
  end.

Definition trade_detail (trade : TradesResponse.t) : Detail.t Pair :=
  {| Detail.ID := FormatInt (TradesResponse.OrderID trade);
     Detail.Amount := TradesResponse.Amount trade;
     Detail.Price := TradesResponse.Rate trade;
     Detail.OrderDate := time_Unix (TradesResponse.TimeUnix trade) 0;
     Detail.OrderSide := ToUpper (TradesResponse.Type_ trade);
     Detail.Exchange := Name;
     Detail.CurrencyPair := NewPairDelimiter (TradesResponse.Pair trade) Delimiter;
     Detail.AccountID := ""; Detail.OrderType := ""; Detail.Status := "";
     Detail.ExecutedAmount := 0; Detail.RemainingAmount := 0; Detail.Fee := 0 |}.

Definition GetOrderHistory (req : GetOrdersRequest.t Pair)
    : list (Detail.t Pair) * option error :=
  match fetch_trades (GetOrdersRequest.Currencies req) [] with
  | (_, Some e) => ([], Some e)
  | (trades, None) => (filtered req (map trade_detail trades), None)
  end.

(** *** GetFeeByType *)

(** [exchange.FeeBuilder]: its [FeeType] field and, as one value, the
    fields the wrapper does not look at.  [GetFee] is the fee calculation
    of [gateio.go]; [AllowAuthenticatedRequest] is the receiver's answer. *)
Context {fee_type fee_fields : Type}.
Context `{!EqDecision fee_type}.
Variable CryptocurrencyTradeFee : fee_type.
Variable OfflineTradeFee : fee_type.
Variable AllowAuthenticatedRequest : bool.

Record FeeBuilder := {
  FeeType : fee_type;
  other_fields : fee_fields
}.

Variable GetFee : FeeBuilder → float64 * option error.

(** The builder is passed by pointer: the caller sees the [FeeType] the
    wrapper wrote, so the model returns the builder with the result. *)
Definition GetFeeByType (feeBuilder : FeeBuilder) : (float64 * option error) * FeeBuilder :=
  let feeBuilder' :=
    if negb AllowAuthenticatedRequest &&
       bool_decide (FeeType feeBuilder = CryptocurrencyTradeFee)
    then {| FeeType := OfflineTradeFee; other_fields := other_fields feeBuilder |}
    else feeBuilder in
  (GetFee feeBuilder', feeBuilder').

(** ** Notions used to state the properties *)

(** The page source answers the calls of the paging loop, the [k0]-th and
    the following ones, with [pages]. *)
Definition serves (orderType : string) (k0 : nat)
    (pages : list (list WebSocketOrderQueryRecords.t)) : Prop :=
  ∀ k page, pages !! k = Some page →
    wsGetOrderInfo orderType (wrap_int (100 * Z.of_nat (k0 + k))) 100 =
      ({| WebSocketOrderQueryResult.WebSocketOrderQueryRecords := page |}, None).

(** The creation time of the record can be split. *)
Definition splits (r : WebSocketOrderQueryRecords.t) : Prop :=
  (SplitFloatDecimals (WebSocketOrderQueryRecords.Ctime r)).2 = None.

(** The order record of a websocket record whose creation time splits. *)
Definition translated (r : WebSocketOrderQueryRecords.t) : Detail.t Pair :=
  let t := (SplitFloatDecimals (WebSocketOrderQueryRecords.Ctime r)).1 in
  ws_detail r t.1 t.2.

(** A page that makes the loop go on: full, and every record translates. *)
Definition full_page (page : list WebSocketOrderQueryRecords.t) : Prop :=
  (100 ≤ length page)%nat ∧ Forall splits page.

(** The calls of [n] iterations, from the [k0]-th on. *)
Definition offsets (k0 n : nat) : list (Z * Z) :=
  map (λ k : nat, (wrap_int (100 * Z.of_nat k), 100)) (seq k0 n).

(** The raw tickers whose key matches the enabled pair under
    [strings.EqualFold], in visiting order, and the tickers built from
    them. *)
Definition raw_matches (result : gmap string TickerResponse.t) (pair : Pair)
    : list (string * TickerResponse.t) :=
  filter (λ kv, EqualFold kv.1 (Pair_String pair) = true) (range _ result).

Definition tickers_of_pair (result : gmap string TickerResponse.t) (pair : Pair)
    : list (Price.t Pair) :=
  map (λ kv, ticker_of kv.2 pair) (raw_matches result pair).

(** The error of the fetch that the selected path of [UpdateAccountInfo]
    and of [GetActiveOrders] makes first. *)
Definition balance_fetch_error : option error :=
  if CanUseAuthenticatedWebsocketForWrapper then (wsGetBalance []).2 else GetBalances.2.

Definition orders_fetch_error (req : GetOrdersRequest.t Pair) : option error :=
  if CanUseAuthenticatedWebsocketForWrapper
  then (wsGetOrderInfo (GetOrdersRequest.OrderType req) 0 100).2
  else (GetOpenOrders (currPair req)).2.

(** The amount an entry of a decoded object stands for, and what it takes
    for the wrapper to read it: it is a string, and the string parses. *)
Definition amount (v : jvalue) : float64 :=
  match v with
  | jstring s => (ParseFloat s).1
  | jother => 0
  end.

Definition parses (v : jvalue) : Prop :=
  ∃ s, v = jstring s ∧ (ParseFloat s).2 = None.

(** The entry of a key among the entries visited. *)
Fixpoint assoc (k : string) (l : list (string * jvalue)) : option jvalue :=
  match l with
  | [] => None
  | kv :: l' => if decide (kv.1 = k) then Some kv.2 else assoc k l'
  end.

(** The record of a locked currency once the entries [visited] of the
    available object have been read, and the record of a currency that only
    the available object lists. *)
Definition locked_record (visited : list (string * jvalue)) (kv : string * jvalue)
    : Balance.t Code :=
  {| Balance.CurrencyName := NewCode kv.1;
     Balance.TotalValue :=
       match assoc kv.1 visited with
       | Some a => (amount kv.2 + amount a)%float
       | None => 0
       end;
     Balance.Hold := amount kv.2 |}.

Definition available_record (kv : string * jvalue) : Balance.t Code :=
  {| Balance.CurrencyName := NewCode kv.1;
     Balance.TotalValue := amount kv.2;
     Balance.Hold := 0 |}.

(** The balances after the locked entries and the entries [visited] of the
    available object. *)
Definition balances_after (locked visited : list (string * jvalue))
    : list (Balance.t Code) :=
  (map (locked_record visited) locked ++
   map available_record (filter (λ kv, kv.1 ∉ locked.*1) visited))%list.

(** The request with another list of currencies. *)
Definition with_currencies (req : GetOrdersRequest.t Pair) (currencies : list Pair)
    : GetOrdersRequest.t Pair :=
  {| GetOrdersRequest.OrderType := GetOrdersRequest.OrderType req;
     GetOrdersRequest.OrderSide := GetOrdersRequest.OrderSide req;
     GetOrdersRequest.StartTicks := GetOrdersRequest.StartTicks req;
     GetOrdersRequest.EndTicks := GetOrdersRequest.EndTicks req;
     GetOrdersRequest.Currencies := currencies |}.

(** A balance as the pair of its currency and its hold. *)
Definition name_and_hold (b : Balance.t Code) : Code * float64 :=
  (Balance.CurrencyName b, Balance.Hold b).

(** The entry is a string. *)
Definition is_string (v : jvalue) : Prop := ∃ s, v = jstring s.

(** The trades fetched for the currencies, in order. *)
Definition trades_of (currencies : list Pair) : list TradesResponse.t :=
  concat (map (λ c, TradeHistoryResponse.Trades (GetTradeHistory (Pair_String c)).1)
              currencies).

(** The offsets of the first [n] calls when the offset does not overflow. *)
Definition plain_offsets (n : nat) : list (Z * Z) :=
  map (λ k : nat, (100 * Z.of_nat k, 100)) (seq 0 n).

(** The record came in a page that a fetch of the paging loop returned
    without an error. *)
Definition fetched (orderType : string) (r : WebSocketOrderQueryRecords.t) : Prop :=
  ∃ i, (wsGetOrderInfo orderType i 100).2 = None ∧
       r ∈ WebSocketOrderQueryResult.WebSocketOrderQueryRecords
             (wsGetOrderInfo orderType i 100).1.

(** The order records the paging loop hands over when it is left. *)
Definition exit_orders (x : loop_exit) : list (Detail.t Pair) :=
  match x with
  | Break orders => orders
  | Return orders _ => orders
  end.

(** The calls of [ticker.ProcessTicker] that publishing [tickers] makes,
    one after the other on the store left by the one before: the store at
    the end and the errors returned, in order. *)
Fixpoint process_all (assetType : asset_Item) (tickers : list (Price.t Pair))
    (st : Store) : Store * list error :=
  match tickers with
  | [] => (st, [])
  | t :: rest =>
      let '(st', err) := ProcessTicker Name t assetType st in
      let '(st'', errors) := process_all assetType rest st' in
      (st'', match err with Some e => e :: errors | None => errors end)
  end.

(** The world after [tickers] were published in [w], one after the
    other. *)
Definition publish_all (assetType : asset_Item) (tickers : list (Price.t Pair))
    (w : World) : World :=
  {| store := (process_all assetType tickers (store w)).1;
     published := published w ++ tickers;
     logged := logged w ++ (process_all assetType tickers (store w)).2 |}.

(** ** The paging loop *)

Lemma wrap_int_step (k : nat) :
  wrap_int (wrap_int (100 * Z.of_nat k) + 100) = wrap_int (100 * Z.of_nat (S k)).
Proof.
  unfold wrap_int.
  replace ((100 * Z.of_nat k + 2 ^ 63) `mod` 2 ^ 64 - 2 ^ 63 + 100 + 2 ^ 63)
    with ((100 * Z.of_nat k + 2 ^ 63) `mod` 2 ^ 64 + 100) by lia.
  rewrite Zplus_mod_idemp_l. f_equal. f_equal. lia.
Qed.

Lemma ws_append_splits records orders :
  Forall splits records →
  ws_append records orders = ((orders ++ map translated records)%list, None).
Proof.
  intros Hs. revert orders.
  induction Hs as [|r rest Hr _ IH]; intros orders; simpl.
  - by rewrite app_nil_r.
  - unfold splits in Hr. unfold translated at 1.
    destruct (SplitFloatDecimals (WebSocketOrderQueryRecords.Ctime r))
      as [[firstNum decNum] err] eqn:E.
    simpl in *. subst err. rewrite IH. by rewrite <- app_assoc.
Qed.

Lemma serves_tail orderType k0 page pages :
  serves orderType k0 (page :: pages) → serves orderType (S k0) pages.
Proof.
  intros H k p Hp. specialize (H (S k) p Hp).
  by replace (S k0 + k)%nat with (k0 + S k)%nat by lia.
Qed.

(** Full pages are fetched one after the other, each one appended. *)
Lemma ws_pages_full orderType pages :
  ∀ k0 fuel orders calls,
    serves orderType k0 pages →
    Forall full_page pages →
    ws_pages (length pages + fuel) orderType (wrap_int (100 * Z.of_nat k0)) orders calls =
    ws_pages fuel orderType (wrap_int (100 * Z.of_nat (k0 + length pages)))
      (orders ++ map translated (concat pages))%list
      (calls ++ offsets k0 (length pages))%list.
Proof.
  induction pages as [|page pages IH]; intros k0 fuel orders calls Hsrv Hfull.
  - simpl. by rewrite !app_nil_r, Nat.add_0_r.
  - apply Forall_cons in Hfull as [[Hlen Hsplit] Hfull].
    cbn [length Nat.add ws_pages].
    pose proof (Hsrv 0%nat page eq_refl) as H0.
    rewrite Nat.add_0_r in H0. rewrite H0.
    cbn [WebSocketOrderQueryResult.WebSocketOrderQueryRecords].
    rewrite (ws_append_splits _ _ Hsplit).
    rewrite bool_decide_eq_false_2 by lia.
    rewrite wrap_int_step.
    rewrite (IH (S k0) fuel _ _ (serves_tail _ _ _ _ Hsrv) Hfull).
    cbn [concat]. rewrite map_app, !app_assoc.
    replace (S k0 + length pages)%nat with (k0 + S (length pages))%nat by lia.
    f_equal. unfold offsets. cbn [seq map]. by rewrite <- app_assoc.
Qed.

(** Full pages followed by a failing fetch: the loop ends by
    [return orders, err]. *)
Lemma ws_pages_fetch_error orderType pages junk e fuel :
  serves orderType 0 pages →
  Forall full_page pages →
  wsGetOrderInfo orderType (wrap_int (100 * Z.of_nat (length pages))) 100 = (junk, Some e) →
  (length pages < fuel)%nat →
  ws_pages fuel orderType 0 [] [] =
    Some (Return (map translated (concat pages)) e, offsets 0 (length pages + 1)).
Proof.
  intros Hsrv Hfull Herr Hfuel.
  destruct (Nat.le_exists_sub (S (length pages)) fuel Hfuel) as [extra [-> _]].
  replace (extra + S (length pages))%nat
    with (length pages + S extra)%nat by lia.
  change 0 with (wrap_int (100 * Z.of_nat 0)) at 1.
  rewrite ws_pages_full by done.
  cbn [ws_pages Nat.add]. rewrite Herr.
  do 2 f_equal. unfold offsets. rewrite seq_app, map_app. simpl. done.
Qed.


(** C4 (amended).  On the websocket path of [GetActiveOrders], when the
    fetch of a page fails after [pages] were fetched, the call returns the
    error of that fetch, never a success; the records accumulated from the
    earlier pages are not discarded but returned together with the error
    ([return orders, err]). *)
Theorem GetActiveOrders_page_error_keeps_orders req pages junk e fuel :
  CanUseAuthenticatedWebsocketForWrapper = true →
  serves (GetOrdersRequest.OrderType req) 0 pages →
  Forall full_page pages →
  wsGetOrderInfo (GetOrdersRequest.OrderType req)
                 (wrap_int (100 * Z.of_nat (length pages))) 100 = (junk, Some e) →
  (length pages < fuel)%nat →
  GetActiveOrders fuel req = Some (map translated (concat pages), Some e).
Proof.
  intros Hws Hsrv Hfull Herr Hfuel. unfold GetActiveOrders. rewrite Hws.
  by rewrite (ws_pages_fetch_error _ pages junk e fuel).
Qed.

(** ** Sides, types and amounts of the order records *)

Lemma GetActiveOrders_one_page req records fuel :
  CanUseAuthenticatedWebsocketForWrapper = true →
  wsGetOrderInfo (GetOrdersRequest.OrderType req) 0 100 =
    ({| WebSocketOrderQueryResult.WebSocketOrderQueryRecords := records |}, None) →
  (length records < 100)%nat →
  Forall splits records →
  GetActiveOrders (S fuel) req = Some (filtered req (map translated records), None).
Proof.
  intros Hws Hpage Hshort Hsplit. unfold GetActiveOrders. rewrite Hws.
  cbn [ws_pages]. rewrite Hpage.
  cbn [WebSocketOrderQueryResult.WebSocketOrderQueryRecords].
  rewrite (ws_append_splits _ _ Hsplit).
  by rewrite bool_decide_eq_true_2 by lia.
Qed.

(** C3 (amended).  On the websocket path of [GetActiveOrders] no value of
    the numeric side and type flags makes the call fail: a short page whose
    creation times split is returned whatever its flags are.  A side flag
    of 1 gives [Sell] and every other value, 0 as well as an unknown code
    such as 2, gives [Buy]; a type flag of 1 gives [Limit] and every other
    value gives [Market]. *)
Theorem ws_flags_default_without_error req records fuel r :
  CanUseAuthenticatedWebsocketForWrapper = true →
  wsGetOrderInfo (GetOrdersRequest.OrderType req) 0 100 =
    ({| WebSocketOrderQueryResult.WebSocketOrderQueryRecords := records |}, None) →
  (length records < 100)%nat →
  Forall splits records →
  r ∈ records →
  GetActiveOrders (S fuel) req = Some (filtered req (map translated records), None) ∧
  (WebSocketOrderQueryRecords.Type_ r = 1 → Detail.OrderSide (translated r) = Sell) ∧
  (WebSocketOrderQueryRecords.Type_ r ≠ 1 → Detail.OrderSide (translated r) = Buy) ∧
  (WebSocketOrderQueryRecords.OrderType r = 1 → Detail.OrderType (translated r) = Limit) ∧
  (WebSocketOrderQueryRecords.OrderType r ≠ 1 → Detail.OrderType (translated r) = Market).
Proof.
  intros Hws Hpage Hshort Hsplit _.
  split; [by apply GetActiveOrders_one_page|].
  unfold translated, ws_detail, ws_side, ws_type; simpl.
  repeat split; intros H; by case_decide.
Qed.

Lemma scan_orders_found orderID orders d :
  scan_orders orderID orders = Some d →
  ∃ o, o ∈ orders ∧ OpenOrder.OrderNumber o = orderID ∧ d = order_info o.
Proof.
  induction orders as [|o rest IH]; simpl; [done|].
  case_decide as Hid.
  - intros H. destruct (IH H) as (o' & Hin & Ho'). exists o'. split; [by right|done].
  - intros [= <-]. exists o. split; [by left|]. split; [|done].
    by destruct (decide (OpenOrder.OrderNumber o = orderID)).
Qed.

Lemma ws_append_from records :
  ∀ orders d, d ∈ (ws_append records orders).1 →
    d ∈ orders ∨ ∃ r, r ∈ records ∧ splits r ∧ d = translated r.
Proof.
  induction records as [|r records IH]; intros orders d; cbn [ws_append].
  - by left.
  - unfold splits, translated.
    destruct (SplitFloatDecimals (WebSocketOrderQueryRecords.Ctime r))
      as [[firstNum decNum] [e|]] eqn:E.
    + by left.
    + intros Hd. apply IH in Hd as [Hd|(r' & Hr' & Hs & ->)].
      * apply elem_of_app in Hd as [Hd|Hd]; [by left|].
        apply list_elem_of_singleton in Hd as ->.
        right. exists r. split; [by left|]. by rewrite E.
      * right. exists r'. split; [by right|done].
Qed.

Lemma ws_pages_from orderType fuel :
  ∀ i orders calls exit calls',
    ws_pages fuel orderType i orders calls = Some (exit, calls') →
    ∀ d, d ∈ exit_orders exit →
      d ∈ orders ∨ ∃ r, fetched orderType r ∧ splits r ∧ d = translated r.
Proof.
  induction fuel as [|fuel IH]; intros i orders calls exit calls'; cbn [ws_pages];
    [done|].
  destruct (wsGetOrderInfo orderType i 100) as [resp [e|]] eqn:Hfetch.
  { intros [= <- _] d Hd. by left. }
  assert (∀ d, d ∈ (ws_append (WebSocketOrderQueryResult.WebSocketOrderQueryRecords resp)
                              orders).1 →
               d ∈ orders ∨ ∃ r, fetched orderType r ∧ splits r ∧ d = translated r)
    as Hpage.
  { intros d Hd. apply ws_append_from in Hd as [Hd|(r & Hr & Hs & ->)]; [by left|].
    right. exists r. split; [|done]. exists i. by rewrite Hfetch. }
  destruct (ws_append (WebSocketOrderQueryResult.WebSocketOrderQueryRecords resp) orders)
    as [orders' [e|]].
  { intros [= <- _] d Hd. by apply Hpage. }
  case_bool_decide as Hshort.
  { intros [= <- _] d Hd. by apply Hpage. }
  intros Hrun d Hd. destruct (IH _ _ _ _ _ Hrun d Hd) as [Hd'|Hd']; [|by right].
  by apply Hpage.
Qed.

(** C2 (amended).  The record [GetOrderInfo] returns for the order it
    found has the order's initial amount as amount, its filled amount as
    executed amount, and their difference, computed by the wrapper, as
    remaining amount; nothing keeps that difference from being negative.
    On the websocket path of [GetActiveOrders] every order record
    returned, with or without an error, is made from a record [r] that a
    fetch of the paging loop served, and its remaining amount is the
    [Left] field of [r], as the exchange supplied it, next to the amount
    and the filled amount of [r]: not a difference. *)
Theorem remaining_amount :
  (∀ orderID d,
     GetOrderInfo orderID = (d, None) →
     (∃ o, o ∈ OpenOrdersResponse.Orders (GetOpenOrders "").1 ∧
           OpenOrder.OrderNumber o = orderID ∧
           Detail.Amount d = OpenOrder.InitialAmount o ∧
           Detail.ExecutedAmount d = OpenOrder.FilledAmount o ∧
           Detail.RemainingAmount d =
             (OpenOrder.InitialAmount o - OpenOrder.FilledAmount o)%float) ∧
     Detail.RemainingAmount d = (Detail.Amount d - Detail.ExecutedAmount d)%float) ∧
  (CanUseAuthenticatedWebsocketForWrapper = true →
   (∀ l a b, FilterOrdersByTickRange l a b ⊆ l) →
   (∀ l side, FilterOrdersBySide l side ⊆ l) →
   ∀ fuel req orders err d,
     GetActiveOrders fuel req = Some (orders, err) →
     d ∈ orders →
     ∃ r, fetched (GetOrdersRequest.OrderType req) r ∧
          Detail.Amount d = WebSocketOrderQueryRecords.Amount r ∧
          Detail.ExecutedAmount d = WebSocketOrderQueryRecords.FilledAmount r ∧
          Detail.RemainingAmount d = WebSocketOrderQueryRecords.Left r).
Proof.
  split.
  - intros orderID d. unfold GetOrderInfo.
    destruct (GetOpenOrders "") as [orders [e|]]; simpl; [done|].
    destruct (scan_orders orderID (OpenOrdersResponse.Orders orders)) as [d'|] eqn:E;
      [|done].
    intros [= <-]. apply scan_orders_found in E as (o & Hin & Hid & ->).
    split; [by exists o|done].
  - intros Hws Htick Hside fuel req orders err d. unfold GetActiveOrders. rewrite Hws.
    destruct (ws_pages fuel (GetOrdersRequest.OrderType req) 0 [] [])
      as [[exit calls]|] eqn:Hrun; [|done].
    assert (∀ d', d' ∈ exit_orders exit →
              ∃ r, fetched (GetOrdersRequest.OrderType req) r ∧ d' = translated r)
      as Hfrom.
    { intros d' Hd'.
      destruct (ws_pages_from _ _ _ _ _ _ _ Hrun d' Hd') as [Hd''|(r & Hr & _ & ->)].
      - by apply elem_of_nil in Hd''.
      - by exists r. }
    assert (d ∈ exit_orders exit → ∃ r,
              fetched (GetOrdersRequest.OrderType req) r ∧
              Detail.Amount d = WebSocketOrderQueryRecords.Amount r ∧
              Detail.ExecutedAmount d = WebSocketOrderQueryRecords.FilledAmount r ∧
              Detail.RemainingAmount d = WebSocketOrderQueryRecords.Left r) as Hd.
    { intros Hin. destruct (Hfrom d Hin) as (r & Hr & ->). by exists r. }
    destruct exit as [found|found e]; intros [= <- <-] Hin; apply Hd; cbn.
    + unfold filtered in Hin. by apply Hside, Htick in Hin.
    + done.
Qed.

(** ** Unsupported operations *)

(** C7 (amended).  Fiat withdrawal, in both forms, and the funding history
    fail with [common.ErrFunctionNotSupported] on every input; the export
    of the trade history fails on every input too, but with the other
    sentinel, [common.ErrNotYetImplemented].  None of them ever returns a
    success. *)
Theorem unsupported_operations (FundHistory TradeHistory FiatRequest : Type)
    (request : FiatRequest) (p : Pair) (assetType : asset_Item) :
  @GetFundingHistory FundHistory = ([], Some ErrFunctionNotSupported) ∧
  WithdrawFiatFunds request = ("", Some ErrFunctionNotSupported) ∧
  WithdrawFiatFundsToInternationalBank request = ("", Some ErrFunctionNotSupported) ∧
  @GetExchangeHistory Pair TradeHistory p assetType = ([], Some ErrNotYetImplemented).
Proof. done. Qed.

(** ** The REST path of GetActiveOrders *)

Lemma rest_append_filter os orders :
  rest_append os orders =
    (orders ++ map rest_detail (filter (λ o, OpenOrder.Status o = "open") os))%list.
Proof.
  revert orders. induction os as [|o rest IH]; intros orders; simpl.
  - by rewrite app_nil_r.
  - rewrite filter_cons.
    destruct (decide (OpenOrder.Status o = "open")) as [Hs|Hs].
    + rewrite decide_False by (by intros ?).
      rewrite IH. simpl. by rewrite <- app_assoc.
    + rewrite decide_True by done. apply IH.
Qed.

(** C10.  On the REST path [GetActiveOrders] translates exactly the fetched
    orders whose status is the string "open" and hands them to the two
    filters; an order with any other status is left out without an error.
    As the filters only remove orders, every order of the result has
    status "open" and comes from a fetched order with that status. *)
Theorem rest_active_orders_only_open req resp fuel :
  CanUseAuthenticatedWebsocketForWrapper = false →
  GetOpenOrders (currPair req) = (resp, None) →
  (∀ l a b, FilterOrdersByTickRange l a b ⊆ l) →
  (∀ l side, FilterOrdersBySide l side ⊆ l) →
  ∃ orders,
    GetActiveOrders fuel req = Some (orders, None) ∧
    orders = filtered req (map rest_detail
               (filter (λ o, OpenOrder.Status o = "open") (OpenOrdersResponse.Orders resp))) ∧
    ∀ d, d ∈ orders →
      Detail.Status d = "open" ∧
      ∃ o, o ∈ OpenOrdersResponse.Orders resp ∧ OpenOrder.Status o = "open" ∧
           d = rest_detail o.
Proof.
  intros Hws Hfetch Htick Hside. eexists. split; [|split; [reflexivity|]].
  - unfold GetActiveOrders. rewrite Hws, Hfetch. by rewrite rest_append_filter.
  - intros d Hd. unfold filtered in Hd.
    apply Hside, Htick in Hd.
    apply list_elem_of_fmap in Hd as (o & -> & Ho).
    apply list_elem_of_filter in Ho as [Hopen Ho].
    split; [done|]. by exists o.
Qed.

(** ** CancelAllOrders *)

Lemma count_symbols_dom os (m : gmap string Z) s :
  is_Some (foldl count_symbol m os !! s) ↔
  is_Some (m !! s) ∨ s ∈ OpenOrder.CurrencyPair <$> os.
Proof.
  revert m. induction os as [|o rest IH]; intros m; cbn [foldl fmap list_fmap].
  - rewrite elem_of_nil. split; [by left|by intros [?|[]]].
  - rewrite IH. unfold count_symbol. rewrite elem_of_cons.
    destruct (decide (OpenOrder.CurrencyPair o = s)) as [->|Hne].
    + rewrite lookup_insert_eq. split; [intros _; right; by left|].
      intros _. left. by eexists.
    + rewrite lookup_insert_ne by done. split.
      * intros [?|?]; [by left|right; by right].
      * intros [?|[?|?]]; [by left|congruence|by right].
Qed.

Lemma cancel_symbols_lookup keys (status : gmap string string) s :
  foldl cancel_symbol status keys !! s =
    if decide (s ∈ keys)
    then match CancelAllExistingOrders (-1) s with
         | Some e => Some (Error e)
         | None => status !! s
         end
    else status !! s.
Proof.
  revert status. induction keys as [|k keys IH]; intros status; cbn [foldl].
  - rewrite decide_False; [done|apply not_elem_of_nil].
  - rewrite IH. unfold cancel_symbol.
    destruct (decide (k = s)) as [->|Hne].
    + rewrite (decide_True (P := s ∈ s :: keys)) by (by left).
      destruct (CancelAllExistingOrders (-1) s) eqn:E.
      * rewrite lookup_insert_eq. by case_decide.
      * by case_decide.
    + assert (s ∈ k :: keys ↔ s ∈ keys) as Hiff.
      { rewrite elem_of_cons. split; [intros [?|?]; [congruence|done]|by right]. }
      assert ((match CancelAllExistingOrders (-1) k with
               | Some e => <[k:=Error e]> status
               | None => status
               end) !! s = status !! s) as ->.
      { destruct (CancelAllExistingOrders (-1) k); [|done].
        by rewrite lookup_insert_ne. }
      destruct (decide (s ∈ keys)) as [Hin|Hin].
      * by rewrite decide_True by (by apply Hiff).
      * by rewrite decide_False by (by rewrite Hiff).
Qed.

Lemma range_keys {V} (m : gmap string V) s :
  s ∈ (range V m).*1 ↔ is_Some (m !! s).
Proof using range_perm.
  rewrite (range_perm V m). rewrite list_elem_of_fmap. split.
  - intros ([k v] & -> & Hin). apply elem_of_map_to_list in Hin. by eexists.
  - intros [v Hv]. exists (s, v). split; [done|]. by apply elem_of_map_to_list.
Qed.

(** C9.  Once the open orders have been fetched, [CancelAllOrders] returns
    a nil error whatever the cancellations answer, even when each of them
    fails.  A failed cancellation shows only in the [Status] map: the
    symbol of an open order is a key exactly when its cancellation failed,
    and then maps to the text of that error.  The error value is the same
    for a run in which everything is cancelled and one in which nothing
    is. *)
Theorem CancelAllOrders_hides_cancel_failures c openOrders s :
  GetOpenOrders "" = (openOrders, None) →
  (CancelAllOrders c).2 = None ∧
  CancelAllResponse.Status (CancelAllOrders c).1 !! s =
    if decide (s ∈ OpenOrder.CurrencyPair <$> OpenOrdersResponse.Orders openOrders)
    then Error <$> CancelAllExistingOrders (-1) s
    else None.
Proof using range_perm.
  intros Hfetch. unfold CancelAllOrders. rewrite Hfetch. simpl. split; [done|].
  rewrite cancel_symbols_lookup, lookup_empty.
  pose proof (range_keys (foldl count_symbol ∅ (OpenOrdersResponse.Orders openOrders)) s) as Hk.
  rewrite count_symbols_dom, lookup_empty in Hk.
  destruct (decide (s ∈ OpenOrder.CurrencyPair <$> OpenOrdersResponse.Orders openOrders))
    as [Hin|Hin].
  - rewrite decide_True by (apply Hk; by right).
    by destruct (CancelAllExistingOrders (-1) s).
  - rewrite decide_False; [done|]. intros H. by apply Hk in H as [[? ?]|?].
Qed.

(** ** UpdateTicker *)

Lemma publish_published assetType w t :
  published (publish assetType w t) = (published w ++ [t])%list.
Proof. unfold publish. by destruct (ProcessTicker _ _ _ _). Qed.

Lemma match_pairs_published assetType pair entries :
  ∀ w, published (foldl (match_pair assetType pair) w entries) =
       (published w ++
        map (λ kv, ticker_of kv.2 pair)
            (filter (λ kv, EqualFold kv.1 (Pair_String pair) = true) entries))%list.
Proof.
  induction entries as [|kv entries IH]; intros w; cbn [foldl].
  - by rewrite app_nil_r.
  - rewrite IH, filter_cons. unfold match_pair.
    destruct (EqualFold kv.1 (Pair_String pair)) eqn:E.
    + rewrite decide_True by done. rewrite publish_published.
      by rewrite <- app_assoc.
    + by rewrite decide_False by done.
Qed.

Lemma UpdateTicker_pairs_published assetType result pairs :
  ∀ w, published (foldl (UpdateTicker_pair assetType result) w pairs) =
       (published w ++ concat (map (tickers_of_pair result) pairs))%list.
Proof.
  induction pairs as [|pair pairs IH]; intros w; cbn [foldl map concat].
  - by rewrite app_nil_r.
  - rewrite IH. unfold UpdateTicker_pair.
    rewrite match_pairs_published. by rewrite <- app_assoc.
Qed.

Lemma range_NoDup {V} (m : gmap string V) : NoDup (range V m).
Proof using range_perm. rewrite (range_perm V m). apply NoDup_map_to_list. Qed.

Lemma range_lookup {V} (m : gmap string V) k v :
  (k, v) ∈ range V m ↔ m !! k = Some v.
Proof using range_perm. rewrite (range_perm V m). apply elem_of_map_to_list. Qed.

Lemma filter_only {A} (P : A → Prop) `{!∀ x, Decision (P x)} (l : list A) x :
  NoDup l → x ∈ l → P x → (∀ y, y ∈ l → P y → y = x) → filter P l = [x].
Proof.
  induction 1 as [|a l Ha Hnd IH]; intros Hin HP Huniq.
  - by apply elem_of_nil in Hin.
  - rewrite filter_cons. apply elem_of_cons in Hin as [<-|Hin].
    + rewrite decide_True by done. f_equal.
      apply elem_of_nil_inv. intros y Hy.
      apply list_elem_of_filter in Hy as [HPy Hy].
      assert (y = x) as -> by (apply Huniq; [by right|done]). done.
    + rewrite decide_False.
      * apply IH; [done|done|]. intros y Hy. apply Huniq. by right.
      * intros HPa. assert (a = x) as -> by (apply Huniq; [by left|done]). done.
Qed.

(** C8 (amended).  [UpdateTicker] compares every enabled pair with every
    key of the raw ticker map under [strings.EqualFold] and hands one
    ticker to [ticker.ProcessTicker] for every match of a pair and a key.
    An enabled pair that no key matches gets no ticker and raises no error;
    a pair matched by a single key gets exactly one, built from that key's
    entry (two keys that differ in case only give the pair two).  The
    result of the call is that of the closing [ticker.GetTicker] lookup of
    the requested pair. *)
Theorem UpdateTicker_publishes_per_match p assetType w result pair :
  GetTickers = (result, None) →
  published (UpdateTicker p assetType w).2 =
    (published w ++
     concat (map (tickers_of_pair result) (GetEnabledPairs assetType)))%list ∧
  (UpdateTicker p assetType w).1 =
    GetTicker Name p assetType (store (UpdateTicker p assetType w).2) ∧
  ((∀ k, is_Some (result !! k) → EqualFold k (Pair_String pair) = false) →
   tickers_of_pair result pair = []) ∧
  (∀ k r,
     result !! k = Some r →
     EqualFold k (Pair_String pair) = true →
     (∀ k', is_Some (result !! k') → EqualFold k' (Pair_String pair) = true → k' = k) →
     tickers_of_pair result pair = [ticker_of r pair]).
Proof using range_perm.
  intros Hfetch. unfold UpdateTicker. rewrite Hfetch. cbn [fst snd].
  split; [apply UpdateTicker_pairs_published|]. split; [done|].
  unfold tickers_of_pair, raw_matches. split.
  - intros Hnone. replace (filter _ _) with (@nil (string * TickerResponse.t)); [done|].
    symmetry. apply elem_of_nil_inv. intros [k r] Hin.
    apply list_elem_of_filter in Hin as [Hm Hin]. simpl in Hm.
    apply range_lookup in Hin. rewrite Hnone in Hm by (by eexists). done.
  - intros k r Hk Hm Huniq.
    rewrite (filter_only _ _ (k, r)); [done|apply range_NoDup| |done|].
    + by apply range_lookup.
    + intros [k' r'] Hin Hm'. simpl in Hm'. apply range_lookup in Hin.
      assert (k' = k) as -> by (apply Huniq; [by eexists|done]).
      congruence.
Qed.

(** ** Errors of the transport *)

(** The fetch failed: the hypothesis says so, and the operation returns. *)
Ltac surfaced := simpl; intros ->; simpl; done.

Lemma UpdateTicker_fetch_error e p assetType w :
  GetTickers.2 = Some e → (UpdateTicker p assetType w).1.2 = Some e.
Proof. unfold UpdateTicker. destruct GetTickers as [r err]. surfaced. Qed.

Lemma UpdateOrderbook_fetch_error e p assetType w :
  (GetOrderbook (Pair_String (FormatExchangeCurrency p assetType))).2 = Some e →
  (UpdateOrderbook p assetType w).1.2 = Some e.
Proof. unfold UpdateOrderbook. destruct (GetOrderbook _) as [r err]. surfaced. Qed.

Lemma UpdateAccountInfo_fetch_error e w :
  balance_fetch_error = Some e → (UpdateAccountInfo w).1 = Raise e.
Proof.
  unfold balance_fetch_error, UpdateAccountInfo, try.
  destruct CanUseAuthenticatedWebsocketForWrapper.
  - destruct (wsGetBalance []) as [r err]. surfaced.
  - destruct GetBalances as [r err]. surfaced.
Qed.

Lemma SubmitOrder_fetch_error e s :
  Validate s = None →
  (SpotNewOrder (spotNewOrderRequestParams s)).2 = Some e →
  (SubmitOrder s).2 = Some e.
Proof.
  unfold SubmitOrder. intros ->. destruct (SpotNewOrder _) as [r err]. surfaced.
Qed.

Lemma CancelOrder_fetch_error e order id :
  ParseInt (Cancel.OrderID order) = (id, None) →
  (CancelExistingOrder id
     (Pair_String (FormatExchangeCurrency (Cancel.CurrencyPair order)
                                          (Cancel.AssetType order)))).2 = Some e →
  CancelOrder order = Some e.
Proof. unfold CancelOrder. intros ->. surfaced. Qed.

Lemma CancelAllOrders_fetch_error e c :
  (GetOpenOrders "").2 = Some e → (CancelAllOrders c).2 = Some e.
Proof. unfold CancelAllOrders. destruct (GetOpenOrders "") as [r err]. surfaced. Qed.

Lemma GetDepositAddress_fetch_error e cryptocurrency account :
  (GetCryptoDepositAddress (Code_String cryptocurrency)).2 = Some e →
  (GetDepositAddress cryptocurrency account).2 = Some e.
Proof.
  unfold GetDepositAddress. destruct (GetCryptoDepositAddress _) as [r err]. surfaced.
Qed.

Lemma GetActiveOrders_fetch_error e req fuel :
  orders_fetch_error req = Some e →
  GetActiveOrders (S fuel) req = Some ([], Some e).
Proof.
  unfold orders_fetch_error, GetActiveOrders.
  destruct CanUseAuthenticatedWebsocketForWrapper.
  - cbn [ws_pages]. destruct (wsGetOrderInfo _ _ _) as [r err]. surfaced.
  - destruct (GetOpenOrders _) as [r err]. surfaced.
Qed.

Lemma fetch_trades_error e before c after :
  (∀ c', c' ∈ before → (GetTradeHistory (Pair_String c')).2 = None) →
  (GetTradeHistory (Pair_String c)).2 = Some e →
  ∀ trades, fetch_trades (before ++ c :: after) trades = ([], Some e).
Proof.
  intros Hbefore Hc. induction before as [|b before IH]; intros trades; simpl.
  - destruct (GetTradeHistory (Pair_String c)) as [r err]. simpl in Hc. by subst.
  - pose proof (Hbefore b ltac:(by left)) as Hb.
    destruct (GetTradeHistory (Pair_String b)) as [r err]. simpl in Hb. subst err.
    apply IH. intros c' Hc'. apply Hbefore. by right.
Qed.

Lemma GetOrderHistory_fetch_error e req before c after :
  GetOrdersRequest.Currencies req = (before ++ c :: after)%list →
  (∀ c', c' ∈ before → (GetTradeHistory (Pair_String c')).2 = None) →
  (GetTradeHistory (Pair_String c)).2 = Some e →
  GetOrderHistory req = ([], Some e).
Proof.
  intros Hreq Hbefore Hc. unfold GetOrderHistory.
  by rewrite Hreq, (fetch_trades_error e before c after).
Qed.

Lemma GetOrderInfo_fetch_error e orderID :
  (GetOpenOrders "").2 = Some e →
  GetOrderInfo orderID = (zero_Detail, Some (errors_New "failed to get open orders")).
Proof. unfold GetOrderInfo. destruct (GetOpenOrders "") as [r err]. surfaced. Qed.

(** C6 (amended).  When the fetch an operation makes fails, [UpdateTicker],
    [UpdateOrderbook], [UpdateAccountInfo], [SubmitOrder], [CancelOrder],
    [CancelAllOrders] (for its fetch of the open orders),
    [GetDepositAddress], [GetActiveOrders], [GetOrderHistory] and
    [WithdrawCryptocurrencyFunds] return the error value of the fetch
    itself.  [GetOrderInfo] does not: when its fetch of the open orders
    fails it returns a new error with the fixed text "failed to get open
    orders", which is no value the transport returned. *)
Theorem transport_errors_surface e :
  (GetTickers.2 = Some e →
   ∀ p assetType w, (UpdateTicker p assetType w).1.2 = Some e) ∧
  (∀ p assetType w,
     (GetOrderbook (Pair_String (FormatExchangeCurrency p assetType))).2 = Some e →
     (UpdateOrderbook p assetType w).1.2 = Some e) ∧
  (balance_fetch_error = Some e → ∀ w, (UpdateAccountInfo w).1 = Raise e) ∧
  (∀ s, Validate s = None →
        (SpotNewOrder (spotNewOrderRequestParams s)).2 = Some e →
        (SubmitOrder s).2 = Some e) ∧
  (∀ order id,
     ParseInt (Cancel.OrderID order) = (id, None) →
     (CancelExistingOrder id
        (Pair_String (FormatExchangeCurrency (Cancel.CurrencyPair order)
                                             (Cancel.AssetType order)))).2 = Some e →
     CancelOrder order = Some e) ∧
  ((GetOpenOrders "").2 = Some e → ∀ c, (CancelAllOrders c).2 = Some e) ∧
  (∀ cryptocurrency account,
     (GetCryptoDepositAddress (Code_String cryptocurrency)).2 = Some e →
     (GetDepositAddress cryptocurrency account).2 = Some e) ∧
  (∀ req fuel, orders_fetch_error req = Some e →
               GetActiveOrders (S fuel) req = Some ([], Some e)) ∧
  (∀ req before c after,
     GetOrdersRequest.Currencies req = (before ++ c :: after)%list →
     (∀ c', c' ∈ before → (GetTradeHistory (Pair_String c')).2 = None) →
     (GetTradeHistory (Pair_String c)).2 = Some e →
     GetOrderHistory req = ([], Some e)) ∧
  (∀ request,
     WithdrawCryptocurrencyFunds request =
       WithdrawCrypto (Code_String (CryptoRequest.Currency request))
                      (CryptoRequest.Address request) (CryptoRequest.Amount request)) ∧
  ((GetOpenOrders "").2 = Some e →
   ∀ orderID,
     (GetOrderInfo orderID).2 = Some (errors_New "failed to get open orders") ∧
     ∀ text, (GetOrderInfo orderID).2 ≠ Some (upstream text)).
Proof.
  repeat split.
  - intros H p a w. by apply UpdateTicker_fetch_error.
  - intros p a w. apply UpdateOrderbook_fetch_error.
  - intros H w. by apply UpdateAccountInfo_fetch_error.
  - intros s. apply SubmitOrder_fetch_error.
  - intros order id. apply CancelOrder_fetch_error.
  - intros H c. by apply CancelAllOrders_fetch_error.
  - intros c a. apply GetDepositAddress_fetch_error.
  - intros req fuel. apply GetActiveOrders_fetch_error.
  - intros req before c after. apply GetOrderHistory_fetch_error.
  - by rewrite (GetOrderInfo_fetch_error e).
  - rewrite (GetOrderInfo_fetch_error e) by done. done.
Qed.

(** ** The REST path of UpdateAccountInfo *)

(** A currency that only the locked object lists: its record keeps the
    zero [TotalValue] it was created with. *)
Lemma reconcile_locked_only x s lockedF :
  ParseFloat s = (lockedF, None) →
  reconcile [(x, jstring s)] [] =
    Next [{| Balance.CurrencyName := NewCode x;
             Balance.TotalValue := 0;
             Balance.Hold := lockedF |}].
Proof.
  intros H. unfold reconcile. cbn [for_each]. unfold locked_entry.
  cbn [as_string snd fst mbind flow_bind]. unfold try. rewrite H. done.
Qed.

Lemma locked_entry_parses balances k s :
  (ParseFloat s).2 = None →
  locked_entry balances (k, jstring s) =
    Next (balances ++ [locked_record [] (k, jstring s)])%list.
Proof.
  intros Hs. unfold locked_entry. cbn [as_string snd fst mbind flow_bind].
  unfold try. by rewrite Hs.
Qed.

Lemma available_entry_parses balances k s :
  (ParseFloat s).2 = None →
  available_entry balances (k, jstring s) =
    Next match set_total balances (NewCode k) (amount (jstring s)) with
         | Some balances' => balances'
         | None => (balances ++ [available_record (k, jstring s)])%list
         end.
Proof.
  intros Hs. unfold available_entry. cbn [as_string snd fst mbind flow_bind].
  unfold try. rewrite Hs. cbn [mbind flow_bind amount].
  by destruct (set_total balances (NewCode k) (ParseFloat s).1).
Qed.

Lemma locked_entries locked :
  ∀ acc, Forall (λ kv, parses kv.2) locked →
    for_each locked_entry locked acc =
      Next (acc ++ map (locked_record []) locked)%list.
Proof.
  induction locked as [|[k v] locked IH]; intros acc Hp; cbn [for_each map].
  - by rewrite app_nil_r.
  - apply Forall_cons in Hp as [(s & Hv & Hs) Hp]. simpl in Hv. subst v.
    rewrite (locked_entry_parses _ _ _ Hs). cbn [mbind flow_bind].
    rewrite (IH _ Hp). by rewrite <- app_assoc.
Qed.

Lemma set_total_absent balances c availAmount :
  (∀ b, b ∈ balances → Balance.CurrencyName b ≠ c) →
  set_total balances c availAmount = None.
Proof.
  induction balances as [|b rest IH]; intros Hne; cbn [set_total]; [done|].
  rewrite decide_False by (apply Hne; by left).
  rewrite IH; [done|]. intros b' Hb'. apply Hne. by right.
Qed.

Lemma set_total_app balances rest c availAmount balances' :
  set_total balances c availAmount = Some balances' →
  set_total (balances ++ rest) c availAmount = Some (balances' ++ rest)%list.
Proof.
  revert balances'. induction balances as [|b bs IH]; intros balances'; cbn [set_total app].
  - done.
  - destruct (decide (Balance.CurrencyName b = c)); [by intros [= <-]|].
    destruct (set_total bs c availAmount) as [bs'|] eqn:E; [|done].
    intros [= <-]. by rewrite (IH bs' eq_refl).
Qed.

Lemma set_total_absent_app balances rest c availAmount :
  (∀ b, b ∈ balances → Balance.CurrencyName b ≠ c) →
  set_total (balances ++ rest) c availAmount =
    (balances ++.) <$> set_total rest c availAmount.
Proof.
  induction balances as [|b bs IH]; intros Hne; cbn [set_total app].
  - by destruct (set_total rest c availAmount).
  - rewrite decide_False by (apply Hne; by left).
    rewrite IH by (intros b' Hb'; apply Hne; by right).
    by destruct (set_total rest c availAmount).
Qed.

Lemma assoc_absent k l : k ∉ l.*1 → assoc k l = None.
Proof.
  induction l as [|kv l IH]; intros Hk; cbn [assoc]; [done|].
  rewrite fmap_cons, not_elem_of_cons in Hk. destruct Hk as [Hne Hk].
  rewrite decide_False by done. by apply IH.
Qed.

Lemma assoc_present k v l : NoDup l.*1 → (k, v) ∈ l → assoc k l = Some v.
Proof.
  induction l as [|kv l IH]; intros Hnd Hin; [by apply elem_of_nil in Hin|].
  rewrite fmap_cons in Hnd. apply NoDup_cons in Hnd as [Hfresh Hnd].
  cbn [assoc]. apply elem_of_cons in Hin as [<-|Hin].
  - by rewrite decide_True.
  - rewrite decide_False; [by apply IH|].
    intros <-. apply Hfresh. apply list_elem_of_fmap. by exists (kv.1, v).
Qed.

Lemma assoc_snoc k' k v l :
  k ∉ l.*1 →
  assoc k' (l ++ [(k, v)]) = if decide (k = k') then Some v else assoc k' l.
Proof.
  induction l as [|kv l IH]; intros Hk; cbn [assoc app fst snd].
  - by destruct (decide (k = k')).
  - rewrite fmap_cons, not_elem_of_cons in Hk. destruct Hk as [Hne Hk].
    rewrite (IH Hk). destruct (decide (kv.1 = k')) as [<-|]; [|done].
    by rewrite decide_False.
Qed.

Section Reconcile.

Hypothesis NewCode_inj : ∀ k k', NewCode k = NewCode k' → k = k'.

(** Reading an available entry of a currency that is locked too: its
    record, and no other, gets its total. *)
Lemma set_total_locked locked visited k v :
  NoDup locked.*1 → k ∈ locked.*1 → k ∉ visited.*1 →
  set_total (map (locked_record visited) locked) (NewCode k) (amount v) =
    Some (map (locked_record (visited ++ [(k, v)])) locked).
Proof using NewCode_inj.
  intros Hnd Hin Hfresh.
  induction locked as [|[k0 v0] locked IH]; [by apply elem_of_nil in Hin|].
  rewrite fmap_cons in Hnd, Hin. apply NoDup_cons in Hnd as [Hk0 Hnd].
  cbn [map set_total]. unfold locked_record at 1. cbn [Balance.CurrencyName fst snd].
  destruct (decide (NewCode k0 = NewCode k)) as [Heq|Hne].
  - apply NewCode_inj in Heq as ->. f_equal. f_equal.
    + unfold locked_record. cbn [fst snd Balance.Hold].
      by rewrite assoc_snoc, decide_True.
    + apply map_ext_in. intros [k1 v1] Hk1. unfold locked_record. cbn [fst snd].
      rewrite assoc_snoc by done. rewrite decide_False; [done|].
      intros ->. apply Hk0. apply list_elem_of_fmap. exists (k1, v1).
      split; [done|]. by apply list_elem_of_In.
  - assert (k0 ≠ k) as Hk by (by intros ->).
    apply elem_of_cons in Hin as [Hin|Hin]; [by simplify_eq/=|].
    rewrite (IH Hnd Hin). cbn [fmap option_fmap option_map]. f_equal. f_equal.
    unfold locked_record. cbn [fst snd].
    rewrite assoc_snoc by done. by rewrite decide_False by (by intros ->).
Qed.

(** The loop over the available entries, from any point on. *)
Lemma available_entries locked rest :
  ∀ visited,
    NoDup locked.*1 →
    NoDup (visited ++ rest)%list.*1 →
    Forall (λ kv, parses kv.2) rest →
    for_each available_entry rest (balances_after locked visited) =
      Next (balances_after locked (visited ++ rest)).
Proof using NewCode_inj.
  induction rest as [|[k v] rest IH]; intros visited Hl Hnd Hp; cbn [for_each].
  - by rewrite app_nil_r.
  - apply Forall_cons in Hp as [(s & Hv & Hs) Hp]. simpl in Hv. subst v.
    assert (k ∉ visited.*1) as Hfresh.
    { rewrite fmap_app, fmap_cons in Hnd. apply NoDup_app in Hnd as (_ & Hd & _).
      intros Hk. apply (Hd k Hk). by left. }
    assert (balances_after locked (visited ++ [(k, jstring s)]) =
            match set_total (balances_after locked visited) (NewCode k)
                            (amount (jstring s)) with
            | Some balances' => balances'
            | None => (balances_after locked visited ++
                       [available_record (k, jstring s)])%list
            end) as Hstep.
    { unfold balances_after. rewrite filter_app, map_app.
      rewrite filter_cons, filter_nil. cbn [fst].
      destruct (decide (k ∈ locked.*1)) as [Hin|Hout].
      - rewrite decide_False by (by intros ?). cbn [map]. rewrite app_nil_r.
        by rewrite (set_total_app _ _ _ _ _ (set_total_locked _ _ _ _ Hl Hin Hfresh)).
      - rewrite decide_True by done. cbn [map].
        rewrite set_total_absent.
        + rewrite <- app_assoc. f_equal. apply map_ext_in. intros [k1 v1] Hk1.
          unfold locked_record. cbn [fst snd]. rewrite assoc_snoc by done.
          rewrite decide_False; [done|]. intros ->. apply Hout.
          apply list_elem_of_fmap. exists (k1, v1). split; [done|].
          by apply list_elem_of_In.
        + intros b Hb. apply elem_of_app in Hb as [Hb|Hb].
          * apply list_elem_of_fmap in Hb as ([k1 v1] & -> & Hk1).
            cbn. intros Heq. apply NewCode_inj in Heq as ->. apply Hout.
            apply list_elem_of_fmap. by exists (k, v1).
          * apply list_elem_of_fmap in Hb as ([k1 v1] & -> & Hk1).
            apply list_elem_of_filter in Hk1 as [_ Hk1].
            cbn. intros Heq. apply NewCode_inj in Heq as ->. apply Hfresh.
            apply list_elem_of_fmap. by exists (k, v1). }
    rewrite (available_entry_parses _ _ _ Hs), <- Hstep. cbn [mbind flow_bind].
    replace (visited ++ (k, jstring s) :: rest)%list
      with ((visited ++ [(k, jstring s)]) ++ rest)%list by (by rewrite <- app_assoc).
    apply (IH (visited ++ [(k, jstring s)])%list Hl); [by rewrite <- app_assoc|done].
Qed.

(** What the reconciliation of the REST path computes when every amount
    parses: one record per locked currency, in visiting order, with the
    locked amount as hold and, when the currency is listed as available
    too, hold plus the available amount as total, but a zero total when it
    is not; then one record per currency that only the available object
    lists, with a zero hold and the available amount as total. *)
Lemma reconcile_closed_form locked available :
  NoDup locked.*1 → NoDup available.*1 →
  Forall (λ kv, parses kv.2) locked →
  Forall (λ kv, parses kv.2) available →
  reconcile locked available = Next (balances_after locked available).
Proof using NewCode_inj.
  intros Hl Ha Hpl Hpa. unfold reconcile.
  rewrite (locked_entries _ _ Hpl). cbn [mbind flow_bind app].
  pose proof (available_entries locked available [] Hl Ha Hpa) as H.
  unfold balances_after at 1 in H. rewrite filter_nil in H. cbn [map] in H.
  rewrite app_nil_r in H. exact H.
Qed.

Lemma assoc_range (m : gmap string jvalue) k : assoc k (range _ m) = m !! k.
Proof using range_perm.
  assert (NoDup (range _ m).*1) as Hnd
    by (rewrite (range_perm _ m); apply NoDup_fst_map_to_list).
  destruct (m !! k) as [v|] eqn:E.
  - apply assoc_present; [done|]. by apply range_lookup.
  - apply assoc_absent. rewrite range_keys, E. by intros [? ?].
Qed.

(** The same on the two decoded objects, for every visiting order. *)
Lemma rest_balances_closed_form (locked available : gmap string jvalue) :
  (∀ k v, locked !! k = Some v → parses v) →
  (∀ k v, available !! k = Some v → parses v) →
  rest_balances {| BalancesResponse.Locked := jobject locked;
                   BalancesResponse.Available := jobject available |} =
    Next (balances_after (range _ locked) (range _ available)).
Proof using NewCode_inj range_perm.
  intros Hl Ha. unfold rest_balances. cbn [entries BalancesResponse.Locked
    BalancesResponse.Available].
  apply reconcile_closed_form.
  - rewrite (range_perm _ locked). apply NoDup_fst_map_to_list.
  - rewrite (range_perm _ available). apply NoDup_fst_map_to_list.
  - apply Forall_forall. intros [k v] Hkv. apply (Hl k). by apply range_lookup.
  - apply Forall_forall. intros [k v] Hkv. apply (Ha k). by apply range_lookup.
Qed.

Lemma filter_keys_NoDup (P : string * jvalue → Prop) `{!∀ x, Decision (P x)}
    (l : list (string * jvalue)) :
  NoDup l.*1 → NoDup (filter P l).*1.
Proof.
  induction l as [|kv l IH]; intros Hnd; [by rewrite filter_nil|].
  rewrite fmap_cons in Hnd. apply NoDup_cons in Hnd as [Hfresh Hnd].
  rewrite filter_cons. destruct (decide (P kv)); [|by apply IH].
  rewrite fmap_cons. apply NoDup_cons. split; [|by apply IH].
  intros Hin. apply Hfresh. apply list_elem_of_fmap in Hin as (kv' & -> & Hkv').
  apply list_elem_of_filter in Hkv' as [_ Hkv'].
  apply list_elem_of_fmap. by exists kv'.
Qed.

Lemma balances_after_names locked visited :
  Balance.CurrencyName <$> balances_after locked visited =
    NewCode <$> (locked.*1 ++ (filter (λ kv, kv.1 ∉ locked.*1) visited).*1)%list.
Proof.
  unfold balances_after. rewrite !fmap_app. f_equal.
  - rewrite <- !list_fmap_compose. by apply list_fmap_ext.
  - rewrite <- !list_fmap_compose. by apply list_fmap_ext.
Qed.

(** X1.  When every amount of the two objects parses and distinct
    currency strings have distinct codes, the reconciliation of the REST
    path returns exactly one record per currency of the union of the two
    key sets, and no other record. *)
Theorem rest_balances_one_record_per_currency (locked available : gmap string jvalue) :
  (∀ k v, locked !! k = Some v → parses v) →
  (∀ k v, available !! k = Some v → parses v) →
  ∃ balances,
    rest_balances {| BalancesResponse.Locked := jobject locked;
                     BalancesResponse.Available := jobject available |} =
      Next balances ∧
    NoDup (Balance.CurrencyName <$> balances) ∧
    ∀ c, c ∈ Balance.CurrencyName <$> balances ↔
         ∃ k, (is_Some (locked !! k) ∨ is_Some (available !! k)) ∧ c = NewCode k.
Proof using NewCode_inj range_perm.
  intros Hl Ha. eexists. split; [by apply rest_balances_closed_form|].
  rewrite balances_after_names.
  assert (NoDup (range _ locked).*1) as Hndl
    by (rewrite (range_perm _ locked); apply NoDup_fst_map_to_list).
  assert (NoDup (range _ available).*1) as Hnda
    by (rewrite (range_perm _ available); apply NoDup_fst_map_to_list).
  split.
  - apply NoDup_fmap_2_strong.
    + intros k k' _ _. apply NewCode_inj.
    + apply NoDup_app. split; [done|]. split; [|by apply filter_keys_NoDup].
      intros k Hk Hk'. apply list_elem_of_fmap in Hk' as ([k' v] & -> & Hin).
      by apply list_elem_of_filter in Hin as [Hout _].
  - intros c. rewrite list_elem_of_fmap. split.
    + intros (k & -> & Hk). exists k. split; [|done].
      apply elem_of_app in Hk as [Hk|Hk].
      * left. by apply range_keys.
      * right. apply list_elem_of_fmap in Hk as ([k' v] & -> & Hin).
        apply list_elem_of_filter in Hin as [_ Hin].
        apply range_lookup in Hin. by eexists.
    + intros (k & Hk & ->). exists k. split; [done|]. apply elem_of_app.
      destruct (decide (k ∈ (range _ locked).*1)) as [Hin|Hout]; [by left|right].
      destruct Hk as [Hk|[v Hv]]; [by apply range_keys in Hk|].
      apply list_elem_of_fmap. exists (k, v). split; [done|].
      apply list_elem_of_filter. split; [done|]. by apply range_lookup.
Qed.

(** X2.  Under the same conditions the record of a currency has the
    locked amount as hold, or a zero hold when only the available object
    lists it; its total is the sum of the locked and the available amount
    when both objects list it, the available amount when only the
    available object does, and zero when only the locked object does. *)
Theorem rest_balances_amounts (locked available : gmap string jvalue) k :
  (∀ k v, locked !! k = Some v → parses v) →
  (∀ k v, available !! k = Some v → parses v) →
  ∃ balances,
    rest_balances {| BalancesResponse.Locked := jobject locked;
                     BalancesResponse.Available := jobject available |} =
      Next balances ∧
    (∀ l a, locked !! k = Some l → available !! k = Some a →
       {| Balance.CurrencyName := NewCode k;
          Balance.TotalValue := (amount l + amount a)%float;
          Balance.Hold := amount l |} ∈ balances) ∧
    (∀ a, locked !! k = None → available !! k = Some a →
       {| Balance.CurrencyName := NewCode k;
          Balance.TotalValue := amount a;
          Balance.Hold := 0 |} ∈ balances) ∧
    (∀ l, locked !! k = Some l → available !! k = None →
       {| Balance.CurrencyName := NewCode k;
          Balance.TotalValue := 0;
          Balance.Hold := amount l |} ∈ balances).
Proof using NewCode_inj range_perm.
  intros Hl Ha. eexists. split; [by apply rest_balances_closed_form|].
  unfold balances_after. repeat split.
  - intros l a Hkl Hka. apply elem_of_app. left.
    apply list_elem_of_fmap. exists (k, l). split; [|by apply range_lookup].
    unfold locked_record. cbn [fst snd]. by rewrite assoc_range, Hka.
  - intros a Hkl Hka. apply elem_of_app. right.
    apply list_elem_of_fmap. exists (k, a). split; [done|].
    apply list_elem_of_filter. split; [|by apply range_lookup].
    cbn [fst]. rewrite range_keys, Hkl. by intros [? ?].
  - intros l Hkl Hka. apply elem_of_app. left.
    apply list_elem_of_fmap. exists (k, l). split; [|by apply range_lookup].
    unfold locked_record. cbn [fst snd]. by rewrite assoc_range, Hka.
Qed.

End Reconcile.

(** ** More on UpdateAccountInfo *)

Lemma set_total_name_and_hold balances c availAmount :
  ∀ balances', set_total balances c availAmount = Some balances' →
    name_and_hold <$> balances' = name_and_hold <$> balances.
Proof.
  induction balances as [|b rest IH]; intros balances'; cbn [set_total]; [done|].
  destruct (decide (Balance.CurrencyName b = c)).
  - by intros [= <-].
  - destruct (set_total rest c availAmount) as [rest'|]; [|done].
    intros [= <-]. rewrite !fmap_cons. f_equal. by apply IH.
Qed.

Lemma locked_entry_string balances k s :
  locked_entry balances (k, jstring s) =
    match (ParseFloat s).2 with
    | None => Next (balances ++ [locked_record [] (k, jstring s)])%list
    | Some e => Raise e
    end.
Proof.
  unfold locked_entry. cbn [as_string snd fst mbind flow_bind]. unfold try.
  by destruct (ParseFloat s).2.
Qed.

Lemma available_entry_string balances k s :
  available_entry balances (k, jstring s) =
    match (ParseFloat s).2 with
    | None => Next match set_total balances (NewCode k) (amount (jstring s)) with
                   | Some balances' => balances'
                   | None => (balances ++ [available_record (k, jstring s)])%list
                   end
    | Some e => Raise e
    end.
Proof.
  unfold available_entry. cbn [as_string snd fst mbind flow_bind]. unfold try.
  destruct (ParseFloat s).2; [done|]. cbn [mbind flow_bind amount].
  by destruct (set_total balances (NewCode k) (ParseFloat s).1).
Qed.

Lemma locked_entries_holds locked :
  ∀ acc balances,
    for_each locked_entry locked acc = Next balances →
    name_and_hold <$> balances =
      ((name_and_hold <$> acc) ++ ((λ kv, (NewCode kv.1, amount kv.2)) <$> locked))%list.
Proof.
  induction locked as [|[k v] locked IH]; intros acc balances; cbn [for_each].
  - intros [= <-]. by rewrite app_nil_r.
  - destruct v as [s|]; [|done]. rewrite locked_entry_string.
    destruct (ParseFloat s).2; [done|]. cbn [mbind flow_bind].
    intros H. rewrite (IH _ _ H), fmap_app, fmap_cons, <- app_assoc. done.
Qed.

Lemma available_entries_holds available :
  ∀ acc balances,
    for_each available_entry available acc = Next balances →
    ∃ unlocked,
      name_and_hold <$> balances = ((name_and_hold <$> acc) ++ unlocked)%list ∧
      Forall (λ x, x.2 = 0%float) unlocked.
Proof.
  induction available as [|[k v] available IH]; intros acc balances; cbn [for_each].
  - intros [= <-]. exists []. by rewrite app_nil_r.
  - destruct v as [s|]; [|done]. rewrite available_entry_string.
    destruct (ParseFloat s).2; [done|]. cbn [mbind flow_bind].
    destruct (set_total acc (NewCode k) (amount (jstring s))) as [acc'|] eqn:E.
    + intros H. destruct (IH _ _ H) as (unlocked & Heq & H0).
      exists unlocked. split; [|done].
      by rewrite Heq, (set_total_name_and_hold _ _ _ _ E).
    + intros H. destruct (IH _ _ H) as (unlocked & Heq & H0).
      exists ((NewCode k, 0%float) :: unlocked). split.
      * rewrite Heq, fmap_app, <- app_assoc. done.
      * by apply Forall_cons.
Qed.

(** X3.  Whatever the codes of the currencies are, the pass over the
    available amounts never changes a hold and never removes or reorders a
    record: when the reconciliation succeeds, the result starts with one
    record per locked entry, in visiting order, each with its locked amount
    as hold, and every record after them has a zero hold. *)
Theorem rest_balances_keeps_holds balance balances :
  rest_balances balance = Next balances →
  ∃ unlocked,
    name_and_hold <$> balances =
      (((λ kv, (NewCode kv.1, amount kv.2)) <$> entries (BalancesResponse.Locked balance))
       ++ unlocked)%list ∧
    Forall (λ x, x.2 = 0%float) unlocked.
Proof.
  unfold rest_balances, reconcile. intros H.
  destruct (for_each locked_entry (entries (BalancesResponse.Locked balance)) [])
    as [held| |] eqn:E; [|done|done].
  cbn [mbind flow_bind] in H.
  destruct (available_entries_holds _ _ _ H) as (unlocked & Heq & H0).
  exists unlocked. split; [|done].
  by rewrite Heq, (locked_entries_holds _ _ _ E).
Qed.

(** A loop whose body raises the parse error of a string entry, and goes
    on otherwise, either finds every entry parsable or returns the parse
    error of one of them. *)
Lemma parse_loop_cases (body : list (Balance.t Code) → string * jvalue →
                               flow (list (Balance.t Code))) l :
  (∀ bs k s, match (ParseFloat s).2 with
             | None => ∃ bs', body bs (k, jstring s) = Next bs'
             | Some e => body bs (k, jstring s) = Raise e
             end) →
  Forall (λ kv, is_string kv.2) l →
  ∀ bs,
    (Forall (λ kv, parses kv.2) l ∧ ∃ bs', for_each body l bs = Next bs') ∨
    (∃ k s e, (k, jstring s) ∈ l ∧ (ParseFloat s).2 = Some e ∧
              for_each body l bs = Raise e).
Proof.
  intros Hbody Hstr. induction Hstr as [|[k v] l [s Hs] _ IH]; intros bs.
  - left. split; [apply Forall_nil; exact I|]. by exists bs.
  - simpl in Hs. subst v. cbn [for_each]. pose proof (Hbody bs k s) as Hb.
    destruct (ParseFloat s).2 as [e|] eqn:E.
    + right. exists k, s, e. split; [by left|]. split; [done|]. by rewrite Hb.
    + destruct Hb as [bs' Hb]. rewrite Hb. cbn [mbind flow_bind].
      destruct (IH bs') as [[Hp Hn]|(k' & s' & e & Hin & He & Hr)].
      * left. split; [|done]. apply Forall_cons. split; [|done]. by exists s.
      * right. exists k', s', e. split; [by right|]. done.
Qed.

(** X4.  On the REST path, when the two objects hold strings only and one
    of them does not parse, [UpdateAccountInfo] returns the parse error of
    one of the entries and no balances at all; [account.Process] is not
    reached, so the caches stay as they were. *)
Theorem UpdateAccountInfo_parse_failure (locked available : gmap string jvalue) w :
  CanUseAuthenticatedWebsocketForWrapper = false →
  GetBalances = ({| BalancesResponse.Locked := jobject locked;
                    BalancesResponse.Available := jobject available |}, None) →
  (∀ k v, locked !! k = Some v → is_string v) →
  (∀ k v, available !! k = Some v → is_string v) →
  (∃ k v, (locked !! k = Some v ∨ available !! k = Some v) ∧ ¬ parses v) →
  ∃ e k s,
    UpdateAccountInfo w = (Raise e, w) ∧
    (locked !! k = Some (jstring s) ∨ available !! k = Some (jstring s)) ∧
    (ParseFloat s).2 = Some e.
Proof using range_perm.
  intros Hws Hfetch Hl Ha (k0 & v0 & Hk0 & Hbad).
  assert (Forall (λ kv, is_string kv.2) (range _ locked)) as Hsl.
  { apply Forall_forall. intros [k v] Hkv. apply (Hl k). by apply range_lookup. }
  assert (Forall (λ kv, is_string kv.2) (range _ available)) as Hsa.
  { apply Forall_forall. intros [k v] Hkv. apply (Ha k). by apply range_lookup. }
  assert (∃ e k s,
            rest_balances {| BalancesResponse.Locked := jobject locked;
                             BalancesResponse.Available := jobject available |} = Raise e ∧
            (locked !! k = Some (jstring s) ∨ available !! k = Some (jstring s)) ∧
            (ParseFloat s).2 = Some e) as (e & k & s & Hr & Hk & He).
  { unfold rest_balances, reconcile.
    cbn [entries BalancesResponse.Locked BalancesResponse.Available].
    destruct (parse_loop_cases locked_entry (range _ locked)) with (bs := @nil (Balance.t Code))
      as [[Hpl [held Hheld]]|(k & s & e & Hin & He & Hr)]; [|done| |].
    - intros bs k s. rewrite locked_entry_string.
      destruct (ParseFloat s).2; [done|]. by eexists.
    - rewrite Hheld. cbn [mbind flow_bind].
      destruct (parse_loop_cases available_entry (range _ available)) with (bs := held)
        as [[Hpa _]|(k & s & e & Hin & He & Hr)]; [|done| |].
      + intros bs k s. rewrite available_entry_string.
        destruct (ParseFloat s).2; [done|]. by eexists.
      + exfalso. apply Hbad. destruct Hk0 as [Hk0|Hk0].
        * apply range_lookup in Hk0.
          by apply (proj1 (Forall_forall _ _) Hpl (k0, v0)).
        * apply range_lookup in Hk0.
          by apply (proj1 (Forall_forall _ _) Hpa (k0, v0)).
      + exists e, k, s. split; [done|]. split; [|done]. right. by apply range_lookup.
    - exists e, k, s. rewrite Hr. split; [done|]. split; [|done].
      left. by apply range_lookup. }
  exists e, k, s. split; [|done].
  unfold UpdateAccountInfo. rewrite Hws, Hfetch. unfold try at 1.
  cbn [snd fst mbind flow_bind]. by rewrite Hr.
Qed.

(** X5.  On the websocket path a successful [UpdateAccountInfo] returns
    one sub-account that holds, for every currency of the response and for
    nothing else, the record with the frozen amount as hold and the sum of
    the available and the frozen amount as total; there are as many records
    as currencies. *)
Theorem UpdateAccountInfo_websocket_balances resp w :
  CanUseAuthenticatedWebsocketForWrapper = true →
  wsGetBalance [] = (resp, None) →
  (account_Process
     {| Holdings.Exchange := Name;
        Holdings.Accounts :=
          [{| SubAccount.Currencies :=
                map ws_balance (range _ (WsGetBalanceResponse.Result resp)) |}] |}
     (store w)).2 = None →
  ∃ currencies,
    (UpdateAccountInfo w).1 =
      Next {| Holdings.Exchange := Name;
              Holdings.Accounts := [{| SubAccount.Currencies := currencies |}] |} ∧
    length currencies = size (WsGetBalanceResponse.Result resp) ∧
    ∀ b, b ∈ currencies ↔
         ∃ k v, WsGetBalanceResponse.Result resp !! k = Some v ∧
                b = {| Balance.CurrencyName := NewCode k;
                       Balance.TotalValue :=
                         (WsBalanceCurrency.Available v + WsBalanceCurrency.Freeze v)%float;
                       Balance.Hold := WsBalanceCurrency.Freeze v |}.
Proof using range_perm.
  intros Hws Hfetch Hprocess. eexists. split; [|split].
  - unfold UpdateAccountInfo. rewrite Hws, Hfetch. unfold try.
    cbn [snd fst mbind flow_bind].
    destruct (account_Process _ (store w)) as [st err]. simpl in Hprocess.
    by subst err.
  - rewrite length_map, (range_perm _ (WsGetBalanceResponse.Result resp)).
    by rewrite length_map_to_list.
  - intros b. rewrite list_elem_of_fmap. split.
    + intros ([k v] & -> & Hin). exists k, v. split; [|done]. by apply range_lookup.
    + intros (k & v & Hkv & ->). exists (k, v). split; [done|]. by apply range_lookup.
Qed.

(** X6.  On either path, a snapshot that [UpdateAccountInfo] returns
    carries the name of the exchange, has exactly one sub-account, and is
    the very value [account.Process] accepted: the caches after the call
    are the ones [account.Process] left for it. *)
Theorem UpdateAccountInfo_returns_processed w info :
  (UpdateAccountInfo w).1 = Next info →
  Holdings.Exchange info = Name ∧
  length (Holdings.Accounts info) = 1%nat ∧
  account_Process info (store w) = (store (UpdateAccountInfo w).2, None).
Proof.
  unfold UpdateAccountInfo.
  match goal with
  | |- context [match ?a with Next _ => _ | Raise _ => _ | Panics => _ end] =>
      assert (∀ accs, a = Next accs → length accs = 1%nat) as Hone;
      [|destruct a as [accs| |] eqn:E; [|done|done]]
  end.
  { intros accs. destruct CanUseAuthenticatedWebsocketForWrapper.
    - destruct (try (wsGetBalance [])); [|done|done].
      cbn [mbind flow_bind]. by intros [= <-].
    - destruct (try GetBalances) as [balance| |]; [|done|done].
      cbn [mbind flow_bind]. destruct (rest_balances balance); [|done|done].
      cbn [mbind flow_bind]. by intros [= <-]. }
  destruct (account_Process _ (store w)) as [st [e|]] eqn:Ep; [done|].
  cbn [fst snd]. intros [= <-]. cbn [Holdings.Exchange Holdings.Accounts store].
  split; [done|]. split; [by apply Hone|done].
Qed.

(** ** More on the order operations *)

Lemma scan_orders_first orderID before o after :
  (∀ o', o' ∈ before → OpenOrder.OrderNumber o' ≠ orderID) →
  OpenOrder.OrderNumber o = orderID →
  scan_orders orderID (before ++ o :: after) = Some (order_info o).
Proof.
  intros Hbefore Ho. induction before as [|b before IH]; cbn [scan_orders app].
  - by rewrite decide_False by (by intros ?).
  - rewrite decide_True by (apply Hbefore; by left).
    apply IH. intros o' Ho'. apply Hbefore. by right.
Qed.

Lemma scan_orders_none orderID orders :
  scan_orders orderID orders = None ↔
  ∀ o, o ∈ orders → OpenOrder.OrderNumber o ≠ orderID.
Proof.
  induction orders as [|o rest IH]; cbn [scan_orders].
  - split; [|done]. intros _ o Ho. by apply elem_of_nil in Ho.
  - destruct (decide (OpenOrder.OrderNumber o ≠ orderID)) as [Hne|Heq].
    + rewrite IH. split.
      * intros H o' Ho'. apply elem_of_cons in Ho' as [->|Ho']; [done|by apply H].
      * intros H o' Ho'. apply H. by right.
    + split; [done|]. intros H. exfalso. apply Heq, H. by left.
Qed.

(** X7.  When several open orders carry the requested id, [GetOrderInfo]
    returns the record of the first of them in the order of the response. *)
Theorem GetOrderInfo_first_match orderID resp before o after :
  GetOpenOrders "" = (resp, None) →
  OpenOrdersResponse.Orders resp = (before ++ o :: after)%list →
  (∀ o', o' ∈ before → OpenOrder.OrderNumber o' ≠ orderID) →
  OpenOrder.OrderNumber o = orderID →
  GetOrderInfo orderID = (order_info o, None).
Proof.
  intros Hfetch Horders Hbefore Ho. unfold GetOrderInfo.
  by rewrite Hfetch, Horders, (scan_orders_first _ _ _ _ Hbefore Ho).
Qed.

(** X8.  Once the open orders are fetched, [GetOrderInfo] succeeds exactly
    when one of them carries the requested id; when none does it returns
    the zero record and the error "no order found with id" followed by the
    id. *)
Theorem GetOrderInfo_found_iff orderID resp :
  GetOpenOrders "" = (resp, None) →
  ((GetOrderInfo orderID).2 = None ↔
   ∃ o, o ∈ OpenOrdersResponse.Orders resp ∧ OpenOrder.OrderNumber o = orderID) ∧
  ((∀ o, o ∈ OpenOrdersResponse.Orders resp → OpenOrder.OrderNumber o ≠ orderID) →
   GetOrderInfo orderID =
     (zero_Detail, Some (fmt_Errorf ("no order found with id " ++ orderID)))).
Proof.
  intros Hfetch. unfold GetOrderInfo. rewrite Hfetch.
  destruct (scan_orders orderID (OpenOrdersResponse.Orders resp)) as [d|] eqn:E.
  - apply scan_orders_found in E as (o & Hin & Hid & _). split.
    + split; [intros _; by exists o|done].
    + intros Hnone. by destruct (Hnone o Hin).
  - split; [|done]. split; [done|].
    intros (o & Hin & Hid). by destruct (proj1 (scan_orders_none _ _) E o Hin).
Qed.

(** X9.  [SubmitOrder] reports an order as placed exactly when it returns
    no error, which is exactly when the validation passed and the exchange
    accepted the order; whenever it returns an error the response is the
    zero value.  Every side other than [order.Buy] is sent to the exchange
    as a sell. *)
Theorem SubmitOrder_placed_iff s :
  ((SubmitOrder s).2 = None ↔
   Validate s = None ∧ (SpotNewOrder (spotNewOrderRequestParams s)).2 = None) ∧
  (SubmitResponse.IsOrderPlaced (SubmitOrder s).1 = true ↔ (SubmitOrder s).2 = None) ∧
  ((SubmitOrder s).2 ≠ None → (SubmitOrder s).1 = zero_SubmitResponse) ∧
  (Submit.OrderSide s ≠ Buy →
   SpotNewOrderRequestParams.Type_ (spotNewOrderRequestParams s) = ToLower Sell).
Proof.
  unfold SubmitOrder.
  destruct (Validate s) as [e|].
  - cbn. repeat split; try done; try (by intros [? ?]).
    intros Hs. unfold spotNewOrderRequestParams. cbn. by rewrite decide_False.
  - destruct (SpotNewOrder (spotNewOrderRequestParams s)) as [response [e|]].
    + cbn. repeat split; try done; try (by intros [? ?]).
      intros Hs. unfold spotNewOrderRequestParams. cbn. by rewrite decide_False.
    + cbn. repeat split; try done.
      intros Hs. unfold spotNewOrderRequestParams. cbn. by rewrite decide_False.
Qed.

(** X10.  [GetDepositAddress] never hands out the placeholder text the
    exchange answers with while an address is being generated: an address
    it returns without an error is the one the exchange gave and is not
    the placeholder, and whenever it returns an error the address is
    empty. *)
Theorem GetDepositAddress_never_placeholder cryptocurrency account :
  ((GetDepositAddress cryptocurrency account).2 = None →
   (GetDepositAddress cryptocurrency account).1 ≠ gateioGenerateAddress ∧
   GetCryptoDepositAddress (Code_String cryptocurrency) =
     ((GetDepositAddress cryptocurrency account).1, None)) ∧
  ((GetDepositAddress cryptocurrency account).2 ≠ None →
   (GetDepositAddress cryptocurrency account).1 = "").
Proof.
  unfold GetDepositAddress.
  destruct (GetCryptoDepositAddress (Code_String cryptocurrency)) as [addr [e|]].
  - by split.
  - destruct (decide (addr = gateioGenerateAddress)); by split.
Qed.

Lemma ws_append_split_error good bad rest junk e :
  Forall splits good →
  SplitFloatDecimals (WebSocketOrderQueryRecords.Ctime bad) = (junk, Some e) →
  ∀ orders, ws_append (good ++ bad :: rest) orders =
              ((orders ++ map translated good)%list, Some e).
Proof.
  intros Hgood Hbad. induction Hgood as [|r good Hr _ IH]; intros orders.
  - cbn [app ws_append map]. rewrite Hbad. destruct junk. by rewrite app_nil_r.
  - cbn [app ws_append map]. unfold splits in Hr. unfold translated at 1.
    destruct (SplitFloatDecimals (WebSocketOrderQueryRecords.Ctime r))
      as [[firstNum decNum] err]. simpl in *. subst err.
    rewrite IH. by rewrite <- app_assoc.
Qed.

(** X11.  On the websocket path, when the creation time of a record of
    the first page cannot be split, [GetActiveOrders] returns that error
    together with the records of the page that precede the failing one;
    the rest of the page is not translated, whatever the length of the
    page. *)
Theorem GetActiveOrders_split_error req good bad rest junk e fuel :
  CanUseAuthenticatedWebsocketForWrapper = true →
  wsGetOrderInfo (GetOrdersRequest.OrderType req) 0 100 =
    ({| WebSocketOrderQueryResult.WebSocketOrderQueryRecords :=
          (good ++ bad :: rest)%list |}, None) →
  Forall splits good →
  SplitFloatDecimals (WebSocketOrderQueryRecords.Ctime bad) = (junk, Some e) →
  GetActiveOrders (S fuel) req = Some (map translated good, Some e).
Proof.
  intros Hws Hpage Hgood Hbad. unfold GetActiveOrders. rewrite Hws.
  cbn [ws_pages]. rewrite Hpage.
  cbn [WebSocketOrderQueryResult.WebSocketOrderQueryRecords].
  by rewrite (ws_append_split_error _ _ _ _ _ Hgood Hbad).
Qed.

Lemma ws_pages_endless orderType :
  (∀ i, ∃ page,
     wsGetOrderInfo orderType i 100 =
       ({| WebSocketOrderQueryResult.WebSocketOrderQueryRecords := page |}, None) ∧
     full_page page) →
  ∀ fuel i orders calls, ws_pages fuel orderType i orders calls = None.
Proof.
  intros Hfull. induction fuel as [|fuel IH]; intros i orders calls; [done|].
  cbn [ws_pages]. destruct (Hfull i) as (page & -> & Hlen & Hsplit).
  cbn [WebSocketOrderQueryResult.WebSocketOrderQueryRecords].
  rewrite (ws_append_splits _ _ Hsplit).
  rewrite bool_decide_eq_false_2 by lia. apply IH.
Qed.

(** X12.  The paging loop has no bound of its own: against a source that
    answers every offset with a page of at least 100 records, the websocket
    path of [GetActiveOrders] does not return, however many iterations it
    is given. *)
Theorem GetActiveOrders_endless req :
  CanUseAuthenticatedWebsocketForWrapper = true →
  (∀ i, ∃ page,
     wsGetOrderInfo (GetOrdersRequest.OrderType req) i 100 =
       ({| WebSocketOrderQueryResult.WebSocketOrderQueryRecords := page |}, None) ∧
     full_page page) →
  ∀ fuel, GetActiveOrders fuel req = None.
Proof.
  intros Hws Hfull fuel. unfold GetActiveOrders. rewrite Hws.
  by rewrite (ws_pages_endless _ Hfull).
Qed.

Lemma ws_pages_calls_from orderType fuel :
  ∀ k0 orders calls0 exit calls,
    ws_pages fuel orderType (wrap_int (100 * Z.of_nat k0)) orders calls0 =
      Some (exit, calls) →
    ∃ n, (0 < n)%nat ∧ calls = (calls0 ++ offsets k0 n)%list.
Proof.
  induction fuel as [|fuel IH]; intros k0 orders calls0 exit calls; [done|].
  cbn [ws_pages].
  destruct (wsGetOrderInfo orderType (wrap_int (100 * Z.of_nat k0)) 100) as [resp [e|]].
  { intros [= <- <-]. exists 1%nat. split; [lia|done]. }
  destruct (ws_append _ orders) as [orders' [e|]].
  { intros [= <- <-]. exists 1%nat. split; [lia|done]. }
  case_bool_decide as Hshort.
  { intros [= <- <-]. exists 1%nat. split; [lia|done]. }
  rewrite wrap_int_step. intros Hrest.
  destruct (IH _ _ _ _ _ Hrest) as (n & Hn & ->).
  exists (S n). split; [lia|]. unfold offsets. cbn [seq map].
  by rewrite <- app_assoc.
Qed.

Lemma wrap_int_small z : (- 2 ^ 63 ≤ z < 2 ^ 63)%Z → wrap_int z = z.
Proof. intros Hz. unfold wrap_int. rewrite Z.mod_small; lia. Qed.

(** X13.  Whatever the source answers and however the loop ends, every
    call of the paging loop asks for 100 records, the first one at offset
    0 and each further one 100 past the one before (in Go's [int]); as long
    as 100 times the number of calls fits an [int], the offsets are the
    plain multiples 0, 100, 200, ...  At least one call is made. *)
Theorem ws_pages_calls orderType fuel exit calls :
  ws_pages fuel orderType 0 [] [] = Some (exit, calls) →
  (0 < length calls)%nat ∧
  calls = offsets 0 (length calls) ∧
  ((100 * Z.of_nat (length calls) ≤ 2 ^ 63)%Z → calls = plain_offsets (length calls)).
Proof.
  intros H. change 0 with (wrap_int (100 * Z.of_nat 0)) in H at 1.
  apply ws_pages_calls_from in H as (n & Hn & ->). cbn [app].
  assert (length (offsets 0 n) = n) as Hlen
    by (unfold offsets; by rewrite length_map, length_seq).
  rewrite Hlen. split; [done|]. split; [done|].
  intros Hfit. unfold offsets, plain_offsets. apply map_ext_in.
  intros k Hk. apply in_seq in Hk. f_equal. apply wrap_int_small. lia.
Qed.

(** X14.  The currencies of the request restrict the fetch only on the
    REST path, and there only when exactly one currency is given: on the
    websocket path, and with no or with several currencies, the call does
    what it does for a request without currencies. *)
Theorem GetActiveOrders_currency_filter req currencies fuel :
  CanUseAuthenticatedWebsocketForWrapper = true ∨ length currencies ≠ 1%nat →
  GetActiveOrders fuel (with_currencies req currencies) =
    GetActiveOrders fuel (with_currencies req []).
Proof.
  intros Hcase. unfold GetActiveOrders.
  destruct CanUseAuthenticatedWebsocketForWrapper; [done|].
  destruct Hcase as [|Hlen]; [done|].
  unfold currPair. cbn [with_currencies GetOrdersRequest.Currencies].
  by destruct currencies as [|c [|c' currencies]].
Qed.

Lemma fetch_trades_all currencies :
  (∀ c, c ∈ currencies → (GetTradeHistory (Pair_String c)).2 = None) →
  ∀ trades, fetch_trades currencies trades = ((trades ++ trades_of currencies)%list, None).
Proof.
  induction currencies as [|c currencies IH]; intros Hok trades;
    cbn [fetch_trades trades_of map concat].
  - by rewrite app_nil_r.
  - pose proof (Hok c ltac:(by left)) as Hc.
    destruct (GetTradeHistory (Pair_String c)) as [resp err]. simpl in Hc. subst err.
    rewrite IH by (intros c' Hc'; apply Hok; by right).
    cbn [fst]. by rewrite <- app_assoc.
Qed.

(** X15.  When the trade history of every requested currency is fetched,
    [GetOrderHistory] returns, after the two filters, one order per trade:
    the trades of the first currency first, then those of the second, and
    so on, each currency's trades in the order of its response.  Without
    currencies in the request nothing is fetched. *)
Theorem GetOrderHistory_all_fetched req :
  (∀ c, c ∈ GetOrdersRequest.Currencies req →
        (GetTradeHistory (Pair_String c)).2 = None) →
  GetOrderHistory req =
    (filtered req (map trade_detail (trades_of (GetOrdersRequest.Currencies req))), None).
Proof.
  intros Hok. unfold GetOrderHistory. by rewrite (fetch_trades_all _ Hok).
Qed.

(** ** More on UpdateOrderbook, UpdateTicker, CancelAllOrders and GetFeeByType *)

(** X16.  Once the snapshot is fetched, [UpdateOrderbook] builds a book
    for the requested pair, exchange and asset with one level per raw bid
    and per raw ask, in the same order and with price and amount copied.
    When [Process] rejects the book, that book is returned with the error;
    when it accepts it, the result is that of the closing lookup in the
    caches [Process] left. *)
Theorem UpdateOrderbook_translates p assetType w raw :
  GetOrderbook (Pair_String (FormatExchangeCurrency p assetType)) = (raw, None) →
  ∃ book,
    (∀ i, Base.Bids book !! i =
          (λ x, {| Item.Amount := OrderbookItem.Amount x;
                   Item.Price := OrderbookItem.Price x |}) <$> Orderbook.Bids raw !! i) ∧
    (∀ i, Base.Asks book !! i =
          (λ x, {| Item.Amount := OrderbookItem.Amount x;
                   Item.Price := OrderbookItem.Price x |}) <$> Orderbook.Asks raw !! i) ∧
    Base.Pair book = p ∧ Base.ExchangeName book = Name ∧
    Base.AssetType book = assetType ∧
    store (UpdateOrderbook p assetType w).2 = (orderbook_Process book (store w)).1 ∧
    (∀ e, (orderbook_Process book (store w)).2 = Some e →
          (UpdateOrderbook p assetType w).1 = (book, Some e)) ∧
    ((orderbook_Process book (store w)).2 = None →
     (UpdateOrderbook p assetType w).1 =
       orderbook_Get Name p assetType (orderbook_Process book (store w)).1).
Proof.
  intros Hfetch.
  exists {| Base.Bids := map level (Orderbook.Bids raw);
            Base.Asks := map level (Orderbook.Asks raw);
            Base.Pair := p; Base.ExchangeName := Name;
            Base.AssetType := assetType |}.
  cbn [Base.Bids Base.Asks Base.Pair Base.ExchangeName Base.AssetType].
  split; [intros i; apply list_lookup_fmap|].
  split; [intros i; apply list_lookup_fmap|].
  do 3 (split; [done|]).
  unfold UpdateOrderbook. rewrite Hfetch.
  destruct (orderbook_Process _ (store w)) as [st [e|]]; cbn.
  - split; [done|]. split; [by intros e' [= <-]|done].
  - by repeat split.
Qed.

Lemma process_all_app assetType tickers1 tickers2 :
  ∀ st, process_all assetType (tickers1 ++ tickers2) st =
        ((process_all assetType tickers2 (process_all assetType tickers1 st).1).1,
         ((process_all assetType tickers1 st).2 ++
          (process_all assetType tickers2 (process_all assetType tickers1 st).1).2)%list).
Proof.
  induction tickers1 as [|t tickers1 IH]; intros st; cbn [process_all app fst snd].
  - by destruct (process_all assetType tickers2 st).
  - destruct (ProcessTicker Name t assetType st) as [st' err]. rewrite IH.
    destruct (process_all assetType tickers1 st') as [st1 errors1]. cbn [fst snd].
    destruct (process_all assetType tickers2 st1) as [st2 errors2]. cbn [fst snd].
    by destruct err.
Qed.

Lemma publish_all_nil assetType w : publish_all assetType [] w = w.
Proof. destruct w. unfold publish_all. cbn. by rewrite !app_nil_r. Qed.

Lemma publish_all_app assetType tickers1 tickers2 w :
  publish_all assetType (tickers1 ++ tickers2) w =
    publish_all assetType tickers2 (publish_all assetType tickers1 w).
Proof.
  unfold publish_all. cbn [store published logged].
  rewrite process_all_app. cbn [fst snd]. by rewrite !app_assoc.
Qed.

Lemma publish_one assetType w t :
  publish assetType w t = publish_all assetType [t] w.
Proof.
  unfold publish, publish_all. cbn [process_all].
  destruct (ProcessTicker Name t assetType (store w)) as [st [e|]]; cbn; [done|].
  by rewrite app_nil_r.
Qed.

Lemma match_pairs_publish_all assetType pair entries :
  ∀ w, foldl (match_pair assetType pair) w entries =
       publish_all assetType
         (map (λ kv, ticker_of kv.2 pair)
              (filter (λ kv, EqualFold kv.1 (Pair_String pair) = true) entries)) w.
Proof.
  induction entries as [|kv entries IH]; intros w; cbn [foldl].
  - by rewrite publish_all_nil.
  - rewrite IH, filter_cons. unfold match_pair.
    destruct (EqualFold kv.1 (Pair_String pair)) eqn:E.
    + rewrite decide_True by done. rewrite publish_one.
      by rewrite <- publish_all_app.
    + by rewrite decide_False by done.
Qed.

Lemma UpdateTicker_pairs_publish_all assetType result pairs :
  ∀ w, foldl (UpdateTicker_pair assetType result) w pairs =
       publish_all assetType (concat (map (tickers_of_pair result) pairs)) w.
Proof.
  induction pairs as [|pair pairs IH]; intros w; cbn [foldl map concat].
  - by rewrite publish_all_nil.
  - rewrite IH. unfold UpdateTicker_pair.
    rewrite match_pairs_publish_all. by rewrite <- publish_all_app.
Qed.

Lemma process_all_quiet assetType :
  (∀ t st, (ProcessTicker Name t assetType st).2 = None) →
  ∀ tickers st, (process_all assetType tickers st).2 = [].
Proof.
  intros Hok. induction tickers as [|t tickers IH]; intros st; cbn [process_all]; [done|].
  pose proof (Hok t st) as Ht.
  destruct (ProcessTicker Name t assetType st) as [st' err]. cbn in Ht. subst err.
  pose proof (IH st') as Hrest.
  by destruct (process_all assetType tickers st') as [st'' errors].
Qed.

Lemma process_all_failing assetType (f : Price.t Pair → error) :
  (∀ t st, (ProcessTicker Name t assetType st).2 = Some (f t)) →
  ∀ tickers st, (process_all assetType tickers st).2 = map f tickers.
Proof.
  intros Hfail. induction tickers as [|t tickers IH]; intros st; cbn [process_all map];
    [done|].
  pose proof (Hfail t st) as Ht.
  destruct (ProcessTicker Name t assetType st) as [st' err]. cbn in Ht. subst err.
  pose proof (IH st') as Hrest.
  destruct (process_all assetType tickers st') as [st'' errors]. cbn in Hrest |- *.
  by rewrite Hrest.
Qed.


Lemma CancelAllOrders_lookup c openOrders s :
  GetOpenOrders "" = (openOrders, None) →
  CancelAllResponse.Status (CancelAllOrders c).1 !! s =
    if decide (s ∈ OpenOrder.CurrencyPair <$> OpenOrdersResponse.Orders openOrders)
    then Error <$> CancelAllExistingOrders (-1) s
    else None.
Proof using range_perm.
  intros Hfetch. unfold CancelAllOrders. rewrite Hfetch. cbn [fst CancelAllResponse.Status].
  rewrite cancel_symbols_lookup, lookup_empty.
  pose proof (range_keys (foldl count_symbol ∅ (OpenOrdersResponse.Orders openOrders)) s) as Hk.
  rewrite count_symbols_dom, lookup_empty in Hk.
  destruct (decide (s ∈ OpenOrder.CurrencyPair <$> OpenOrdersResponse.Orders openOrders))
    as [Hin|Hin].
  - rewrite decide_True by (apply Hk; by right).
    by destruct (CancelAllExistingOrders (-1) s).
  - rewrite decide_False; [done|]. intros H. by apply Hk in H as [[? ?]|?].
Qed.

(** X18.  Once the open orders are fetched, the [Status] map of
    [CancelAllOrders] is empty exactly when the cancellation succeeded for
    the pair of every open order (in particular when there is no open
    order), and its keys are pairs of open orders.  The request passed in
    plays no part: every request gets the same answer. *)
Theorem CancelAllOrders_status_empty_iff c openOrders :
  GetOpenOrders "" = (openOrders, None) →
  (CancelAllResponse.Status (CancelAllOrders c).1 = ∅ ↔
   ∀ o, o ∈ OpenOrdersResponse.Orders openOrders →
        CancelAllExistingOrders (-1) (OpenOrder.CurrencyPair o) = None) ∧
  (∀ s, is_Some (CancelAllResponse.Status (CancelAllOrders c).1 !! s) →
        s ∈ OpenOrder.CurrencyPair <$> OpenOrdersResponse.Orders openOrders) ∧
  (∀ c', CancelAllOrders c' = CancelAllOrders c).
Proof using range_perm.
  intros Hfetch. split; [|split; [|done]].
  - split.
    + intros Hempty o Ho.
      pose proof (CancelAllOrders_lookup c openOrders (OpenOrder.CurrencyPair o) Hfetch) as Hs.
      rewrite Hempty, lookup_empty in Hs.
      rewrite decide_True in Hs by (apply list_elem_of_fmap; by exists o).
      by destruct (CancelAllExistingOrders (-1) (OpenOrder.CurrencyPair o)).
    + intros Hok. apply map_eq. intros s.
      rewrite (CancelAllOrders_lookup c openOrders s Hfetch), lookup_empty.
      case_decide as Hin; [|done].
      apply list_elem_of_fmap in Hin as (o & -> & Ho). by rewrite (Hok o Ho).
  - intros s. rewrite (CancelAllOrders_lookup c openOrders s Hfetch).
    case_decide; [done|]. by intros [? ?].
Qed.

(** X19.  While authenticated requests are not allowed, [GetFeeByType]
    asks the fee calculation for the offline trade fee wherever the caller
    asked for the cryptocurrency trade fee, and the caller's builder is
    left with that fee type, so (the two fee types being different) the
    calculation never sees a cryptocurrency trade fee then.  Every other
    request reaches the calculation unchanged, and no other field of the
    builder is ever written. *)
Theorem GetFeeByType_offline feeBuilder :
  CryptocurrencyTradeFee ≠ OfflineTradeFee →
  (GetFeeByType feeBuilder).1 = GetFee (GetFeeByType feeBuilder).2 ∧
  other_fields (GetFeeByType feeBuilder).2 = other_fields feeBuilder ∧
  (AllowAuthenticatedRequest = false →
   FeeType (GetFeeByType feeBuilder).2 ≠ CryptocurrencyTradeFee ∧
   (FeeType feeBuilder = CryptocurrencyTradeFee →
    FeeType (GetFeeByType feeBuilder).2 = OfflineTradeFee)) ∧
  (AllowAuthenticatedRequest = true ∨ FeeType feeBuilder ≠ CryptocurrencyTradeFee →
   (GetFeeByType feeBuilder).2 = feeBuilder).
Proof.
  intros Hne. unfold GetFeeByType. cbn [fst snd].
  destruct AllowAuthenticatedRequest; cbn [negb andb].
  - split; [done|]. split; [done|]. split; [done|]. done.
  - case_bool_decide as Hfee; cbn [FeeType other_fields].
    + split; [done|]. split; [done|]. split.
      * intros _. split; [|done]. intros H. by apply Hne.
      * intros [?|?]; done.
    + split; [done|]. split; [done|]. split; [|done].
      intros _. split; [done|]. by intros ?.
Qed.

End Wrapper.

(** ** Examples: the wrapper on concrete payloads

    The exchange is named "GateIO", pairs are their string forms and the
    collaborators are the stand-ins of [Sample]. *)

Local Abbreviation sample_ws_pages source :=
  (ws_pages (Pair := string) id Sample.FormatInt "GateIO" source
            Sample.SplitFloatDecimals).

Local Abbreviation sample_translated :=
  (translated (Pair := string) id Sample.FormatInt "GateIO" Sample.SplitFloatDecimals).

Local Abbreviation sample_GetActiveOrders websocket rest source :=
  (GetActiveOrders (Pair := string) id Sample.NewPairDelimiter id Sample.ToUpper
     Sample.FormatInt "GateIO" "_" websocket rest source
     Sample.keep_all Sample.keep_side Sample.SplitFloatDecimals).

Local Abbreviation sample_GetOrderInfo rest :=
  (GetOrderInfo (Pair := string) Sample.NewPairDelimiter "" Sample.EqualFold
     "GateIO" "_" rest).

(** The source answers the first calls of the loop with the pages given. *)
Ltac serves_pages :=
  let H := fresh in
  intros ? ? H;
  repeat (match type of H with
          | _ !! ?k = _ => destruct k; cbn in H;
                           [injection H as <-; vm_compute; reflexivity|]
          end);
  discriminate H.

Ltac full_pages :=
  repeat (apply Forall_cons; split;
          [split; [rewrite length_replicate; lia
                  |apply Forall_replicate; reflexivity]|]);
  apply Forall_nil; exact I.



(** A full page, then a failing fetch: the call returns the error together
    with the 100 records of the first page. *)
Lemma GetActiveOrders_page_error_keeps_orders_witness :
  sample_GetActiveOrders true (Sample.open_orders [])
      (Sample.served (Sample.pages_of [100]%nat) Sample.timeout) 2 Sample.request =
    Some (map sample_translated (concat (Sample.pages_of [100]%nat)), Some Sample.timeout).
Proof.
  apply (GetActiveOrders_page_error_keeps_orders (Pair := string)
           id Sample.NewPairDelimiter id Sample.ToUpper Sample.FormatInt "GateIO" "_"
           true (Sample.open_orders [])
           (Sample.served (Sample.pages_of [100]%nat) Sample.timeout)
           Sample.keep_all Sample.keep_side Sample.SplitFloatDecimals
           Sample.request (Sample.pages_of [100]%nat)
           {| WebSocketOrderQueryResult.WebSocketOrderQueryRecords := [] |}
           Sample.timeout 2).
  - reflexivity.
  - serves_pages.
  - full_pages.
  - vm_compute. reflexivity.
  - simpl. lia.
Defined.

(** C4 as stated fails: after a full page and a failing fetch the result
    that comes with the error carries the 100 accumulated records. *)
Lemma GetActiveOrders_page_error_counterexample :
  ∃ orders,
    sample_GetActiveOrders true (Sample.open_orders [])
        (Sample.served (Sample.pages_of [100]%nat) Sample.timeout) 2 Sample.request =
      Some (orders, Some Sample.timeout) ∧
    length orders = 100%nat.
Proof. eexists. split; vm_compute; reflexivity. Qed.

(** A record whose flags both are the unknown code 2. *)
Lemma ws_flags_default_without_error_witness :
  sample_GetActiveOrders true (Sample.open_orders [])
      (Sample.served [[Sample.record 2 2]] Sample.timeout) 1 Sample.request =
    Some (filtered Sample.keep_all Sample.keep_side Sample.request
            (map sample_translated [Sample.record 2 2]), None) ∧
  (WebSocketOrderQueryRecords.Type_ (Sample.record 2 2) = 1 →
   Detail.OrderSide (sample_translated (Sample.record 2 2)) = Sell) ∧
  (WebSocketOrderQueryRecords.Type_ (Sample.record 2 2) ≠ 1 →
   Detail.OrderSide (sample_translated (Sample.record 2 2)) = Buy) ∧
  (WebSocketOrderQueryRecords.OrderType (Sample.record 2 2) = 1 →
   Detail.OrderType (sample_translated (Sample.record 2 2)) = Limit) ∧
  (WebSocketOrderQueryRecords.OrderType (Sample.record 2 2) ≠ 1 →
   Detail.OrderType (sample_translated (Sample.record 2 2)) = Market).
Proof.
  apply (ws_flags_default_without_error (Pair := string)
           id Sample.NewPairDelimiter id Sample.ToUpper Sample.FormatInt "GateIO" "_"
           true (Sample.open_orders [])
           (Sample.served [[Sample.record 2 2]] Sample.timeout)
           Sample.keep_all Sample.keep_side Sample.SplitFloatDecimals
           Sample.request [Sample.record 2 2] 0 (Sample.record 2 2)).
  - reflexivity.
  - vm_compute. reflexivity.
  - simpl. lia.
  - apply Forall_cons. split; [reflexivity|]. apply Forall_nil. exact I.
  - apply list_elem_of_here.
Defined.

(** C3 as stated fails: the call succeeds on a record whose flags both are
    2, and the record comes back as a market buy. *)
Lemma ws_flags_counterexample :
  ∃ d,
    sample_GetActiveOrders true (Sample.open_orders [])
        (Sample.served [[Sample.record 2 2]] Sample.timeout) 1 Sample.request =
      Some ([d], None) ∧
    Detail.OrderSide d = Buy ∧ Detail.OrderType d = Market.
Proof. eexists. repeat split; vm_compute; reflexivity. Qed.

(** An open order with 10 ordered and 4 filled, and a page of one
    websocket record with 10 ordered, 4 filled and 7 reported as left. *)
Lemma remaining_amount_witness :
  ((∃ o, o ∈ [Sample.open_order "42" "open" 10 4] ∧
         OpenOrder.OrderNumber o = "42" ∧
         Detail.Amount (sample_GetOrderInfo (Sample.open_orders
           [Sample.open_order "42" "open" 10 4]) "42").1 = OpenOrder.InitialAmount o ∧
         Detail.ExecutedAmount (sample_GetOrderInfo (Sample.open_orders
           [Sample.open_order "42" "open" 10 4]) "42").1 = OpenOrder.FilledAmount o ∧
         Detail.RemainingAmount (sample_GetOrderInfo (Sample.open_orders
           [Sample.open_order "42" "open" 10 4]) "42").1 =
           (OpenOrder.InitialAmount o - OpenOrder.FilledAmount o)%float) ∧
   Detail.RemainingAmount (sample_GetOrderInfo (Sample.open_orders
     [Sample.open_order "42" "open" 10 4]) "42").1 =
     (Detail.Amount (sample_GetOrderInfo (Sample.open_orders
        [Sample.open_order "42" "open" 10 4]) "42").1 -
      Detail.ExecutedAmount (sample_GetOrderInfo (Sample.open_orders
        [Sample.open_order "42" "open" 10 4]) "42").1)%float) ∧
  sample_GetActiveOrders true (Sample.open_orders [])
      (Sample.served [[Sample.record 0 1]] Sample.timeout) 1 Sample.request =
    Some ([sample_translated (Sample.record 0 1)], None) ∧
  (∃ r, fetched (Sample.served [[Sample.record 0 1]] Sample.timeout)
                (GetOrdersRequest.OrderType Sample.request) r ∧
        Detail.Amount (sample_translated (Sample.record 0 1)) =
          WebSocketOrderQueryRecords.Amount r ∧
        Detail.ExecutedAmount (sample_translated (Sample.record 0 1)) =
          WebSocketOrderQueryRecords.FilledAmount r ∧
        Detail.RemainingAmount (sample_translated (Sample.record 0 1)) =
          WebSocketOrderQueryRecords.Left r) ∧
  Detail.RemainingAmount (sample_translated (Sample.record 0 1)) = 7%float.
Proof.
  destruct (remaining_amount (Pair := string) id Sample.NewPairDelimiter id ""
              Sample.EqualFold Sample.ToUpper Sample.FormatInt "GateIO" "_" true
              (Sample.open_orders [Sample.open_order "42" "open" 10 4])
              (Sample.served [[Sample.record 0 1]] Sample.timeout)
              Sample.keep_all Sample.keep_side Sample.SplitFloatDecimals)
    as [Hrest Hws].
  split; [apply (Hrest "42"); vm_compute; reflexivity|].
  split; [vm_compute; reflexivity|].
  split; [|vm_compute; reflexivity].
  apply (Hws eq_refl (λ l _ _ d H, H) (λ l _ d H, H) 1%nat Sample.request
             [sample_translated (Sample.record 0 1)] None).
  - vm_compute. reflexivity.
  - apply list_elem_of_here.
Defined.

(** C2 as stated fails twice.  On the websocket path a record with 10
    ordered and 4 filled comes back with the remaining amount 7 the
    exchange reported, which is not 10 - 4; and [GetOrderInfo] computes a
    negative remaining amount for an order reported with 1 ordered and 2
    filled. *)
Lemma remaining_amount_counterexample :
  (∃ d,
     sample_GetActiveOrders true (Sample.open_orders [])
         (Sample.served [[Sample.record 0 1]] Sample.timeout) 1 Sample.request =
       Some ([d], None) ∧
     feq (Detail.RemainingAmount d)
         (Detail.Amount d - Detail.ExecutedAmount d)%float = false) ∧
  (∃ d,
     sample_GetOrderInfo (Sample.open_orders [Sample.open_order "42" "open" 1 2]) "42" =
       (d, None) ∧
     flt (Detail.RemainingAmount d) 0 = true).
Proof. split; eexists; split; vm_compute; reflexivity. Qed.

(** C7 as stated fails: the export of the trade history fails with
    [common.ErrNotYetImplemented], which is not the not-supported error. *)
Lemma unsupported_operations_counterexample :
  (@GetExchangeHistory string unit "btc_usdt" Spot).2 = Some ErrNotYetImplemented ∧
  ErrNotYetImplemented ≠ ErrFunctionNotSupported.
Proof. split; [reflexivity|discriminate]. Qed.

Local Abbreviation three_orders :=
  [Sample.open_order "1" "open" 10 4;
   Sample.open_order "2" "OPEN" 10 4;
   Sample.open_order "3" "cancelled" 10 4].

(** Three fetched orders, of which one has the status "open". *)
Lemma rest_active_orders_only_open_witness :
  (∃ orders,
     sample_GetActiveOrders false (Sample.open_orders three_orders)
         (Sample.served [] Sample.timeout) 0 Sample.request = Some (orders, None) ∧
     orders = filtered Sample.keep_all Sample.keep_side Sample.request
                (map (rest_detail Sample.NewPairDelimiter Sample.ToUpper "GateIO" "_")
                   (filter (λ o, OpenOrder.Status o = "open")
                      (OpenOrdersResponse.Orders
                         {| OpenOrdersResponse.Orders := three_orders |}))) ∧
     ∀ d, d ∈ orders →
       Detail.Status d = "open" ∧
       ∃ o, o ∈ OpenOrdersResponse.Orders
                  {| OpenOrdersResponse.Orders := three_orders |} ∧
            OpenOrder.Status o = "open" ∧
            d = rest_detail Sample.NewPairDelimiter Sample.ToUpper "GateIO" "_" o) ∧
  map Detail.ID
    (filtered Sample.keep_all Sample.keep_side Sample.request
       (map (rest_detail (Pair := string) Sample.NewPairDelimiter Sample.ToUpper "GateIO" "_")
          (filter (λ o, OpenOrder.Status o = "open") three_orders))) = ["1"].
Proof.
  split; [|vm_compute; reflexivity].
  apply (rest_active_orders_only_open (Pair := string)
           id Sample.NewPairDelimiter id Sample.ToUpper Sample.FormatInt "GateIO" "_"
           false (Sample.open_orders three_orders) (Sample.served [] Sample.timeout)
           Sample.keep_all Sample.keep_side Sample.SplitFloatDecimals
           Sample.request {| OpenOrdersResponse.Orders := three_orders |} 0).
  - reflexivity.
  - reflexivity.
  - intros l a b d Hd. exact Hd.
  - intros l side d Hd. exact Hd.
Defined.

Local Abbreviation sample_CancelAllOrders rest cancel :=
  (CancelAllOrders (Pair := string) (λ V, map_to_list) rest cancel Sample.cancel).

Local Abbreviation two_orders :=
  [Sample.open_order "1" "open" 10 4; Sample.open_order "2" "open" 10 4].

(** Two open orders on one pair, and a cancellation that times out. *)
Lemma CancelAllOrders_hides_cancel_failures_witness :
  ((sample_CancelAllOrders (Sample.open_orders two_orders)
      Sample.Down.CancelAllExistingOrders).2 = None ∧
   CancelAllResponse.Status
     (sample_CancelAllOrders (Sample.open_orders two_orders)
        Sample.Down.CancelAllExistingOrders).1 !! "btc_usdt" =
     if decide ("btc_usdt" ∈ OpenOrder.CurrencyPair <$>
                  OpenOrdersResponse.Orders {| OpenOrdersResponse.Orders := two_orders |})
     then Error <$> Sample.Down.CancelAllExistingOrders (-1) "btc_usdt"
     else None) ∧
  CancelAllResponse.Status
    (sample_CancelAllOrders (Sample.open_orders two_orders)
       Sample.Down.CancelAllExistingOrders).1 !! "btc_usdt" =
    Some "context deadline exceeded".
Proof.
  split; [|vm_compute; reflexivity].
  apply (CancelAllOrders_hides_cancel_failures (Pair := string)
           (λ V, map_to_list) (λ V m, Permutation_refl _)
           (Sample.open_orders two_orders)
           Sample.Down.CancelAllExistingOrders Sample.cancel
           {| OpenOrdersResponse.Orders := two_orders |} "btc_usdt").
  reflexivity.
Defined.

Local Abbreviation sample_world :=
  (Build_World (Pair := string) (Store := list (Price.t string)) [] [] []).

Local Abbreviation sample_UpdateTicker pairs tickers :=
  (UpdateTicker (Pair := string) (Store := list (Price.t string))
     id "" Sample.EqualFold (λ V, map_to_list) "GateIO" (λ _, pairs) tickers
     Sample.ProcessTicker Sample.GetTicker).

Local Abbreviation sample_tickers_of_pair :=
  (tickers_of_pair (Pair := string) id Sample.EqualFold (λ V, map_to_list)).

Local Abbreviation one_ticker :=
  ({["BTC_USDT" := Sample.ticker 0.5]} : gmap string TickerResponse.t).

(** The raw key "BTC_USDT" and the enabled pairs "btc_usdt" and "eth_btc":
    one ticker for the first pair, none for the second. *)
Lemma UpdateTicker_publishes_per_match_witness :
  published (sample_UpdateTicker ["btc_usdt"; "eth_btc"] (one_ticker, None)
               "btc_usdt" Spot sample_world).2 =
    (published sample_world ++
     concat (map (sample_tickers_of_pair one_ticker) ["btc_usdt"; "eth_btc"]))%list ∧
  (sample_UpdateTicker ["btc_usdt"; "eth_btc"] (one_ticker, None)
     "btc_usdt" Spot sample_world).1 =
    Sample.GetTicker "GateIO" "btc_usdt" Spot
      (store (sample_UpdateTicker ["btc_usdt"; "eth_btc"] (one_ticker, None)
                "btc_usdt" Spot sample_world).2) ∧
  Sample.EqualFold "BTC_USDT" "btc_usdt" = true ∧
  sample_tickers_of_pair one_ticker "btc_usdt" =
    [ticker_of (Sample.ticker 0.5) "btc_usdt"] ∧
  sample_tickers_of_pair one_ticker "eth_btc" = [].
Proof.
  destruct (UpdateTicker_publishes_per_match (Pair := string)
              (Store := list (Price.t string)) id "" Sample.EqualFold
              (λ V, map_to_list) (λ V m, Permutation_refl _) "GateIO"
              (λ _, ["btc_usdt"; "eth_btc"]) (one_ticker, None)
              Sample.ProcessTicker Sample.GetTicker
              "btc_usdt" Spot sample_world one_ticker "btc_usdt" eq_refl)
    as (Hpublished & Hresult & _ & Hone).
  destruct (UpdateTicker_publishes_per_match (Pair := string)
              (Store := list (Price.t string)) id "" Sample.EqualFold
              (λ V, map_to_list) (λ V m, Permutation_refl _) "GateIO"
              (λ _, ["btc_usdt"; "eth_btc"]) (one_ticker, None)
              Sample.ProcessTicker Sample.GetTicker
              "btc_usdt" Spot sample_world one_ticker "eth_btc" eq_refl)
    as (_ & _ & Hnone & _).
  split; [exact Hpublished|]. split; [exact Hresult|]. split; [reflexivity|]. split.
  - apply (Hone "BTC_USDT" (Sample.ticker 0.5)); [reflexivity|reflexivity|].
    intros k [r Hr] _. apply lookup_singleton_Some in Hr as [Hk _]. by symmetry.
  - apply Hnone. intros k [r Hr]. apply lookup_singleton_Some in Hr as [<- _].
    reflexivity.
Defined.

(** C8 as stated fails: with the raw keys "BTC_USDT" and "btc_usdt" the one
    enabled pair "btc_usdt" is published twice by a successful call. *)
Lemma UpdateTicker_counterexample :
  map Price.Pair
    (published (sample_UpdateTicker ["btc_usdt"]
                  ({["BTC_USDT" := Sample.ticker 1; "btc_usdt" := Sample.ticker 2]}, None)
                  "btc_usdt" Spot sample_world).2) = ["btc_usdt"; "btc_usdt"] ∧
  (sample_UpdateTicker ["btc_usdt"]
     ({["BTC_USDT" := Sample.ticker 1; "btc_usdt" := Sample.ticker 2]}, None)
     "btc_usdt" Spot sample_world).1.2 = None.
Proof. split; vm_compute; reflexivity. Qed.

Local Abbreviation down_request :=
  {| GetOrdersRequest.OrderType := "LIMIT";
     GetOrdersRequest.OrderSide := "";
     GetOrdersRequest.StartTicks := zero_Time;
     GetOrdersRequest.EndTicks := zero_Time;
     GetOrdersRequest.Currencies := ["btc_usdt"] |}.

(** Every call of the transport times out. *)
Lemma transport_errors_surface_witness :
  (sample_UpdateTicker ["btc_usdt"] Sample.Down.GetTickers
     "btc_usdt" Spot sample_world).1.2 = Some Sample.timeout ∧
  (UpdateOrderbook (Pair := string) id "" "GateIO" (λ p _, p)
     Sample.Down.GetOrderbook Sample.accept Sample.orderbook_Get
     "btc_usdt" Spot sample_world).1.2 = Some Sample.timeout ∧
  (UpdateAccountInfo (Pair := string) (Code := string) id Sample.ParseFloat
     (λ V, map_to_list) "GateIO" false Sample.Down.GetBalances
     Sample.Down.wsGetBalance Sample.accept sample_world).1 = Raise Sample.timeout ∧
  (SubmitOrder (Pair := string) id Sample.ToLower Sample.FormatInt
     Sample.Down.SpotNewOrder (λ _, None) Sample.submit).2 = Some Sample.timeout ∧
  CancelOrder (Pair := string) id Sample.ParseInt (λ p _, p)
    Sample.Down.CancelExistingOrder Sample.cancel = Some Sample.timeout ∧
  (sample_CancelAllOrders (Sample.no_open_orders Sample.timeout)
     Sample.Down.CancelAllExistingOrders).2 = Some Sample.timeout ∧
  (GetDepositAddress (Code := string) id "generating"
     Sample.Down.GetCryptoDepositAddress "BTC" "").2 = Some Sample.timeout ∧
  sample_GetActiveOrders false (Sample.no_open_orders Sample.timeout)
    (Sample.served [] Sample.timeout) 1 Sample.request = Some ([], Some Sample.timeout) ∧
  GetOrderHistory (Pair := string) id Sample.NewPairDelimiter Sample.ToUpper
    Sample.FormatInt "GateIO" "_" Sample.Down.GetTradeHistory
    Sample.keep_all Sample.keep_side down_request = ([], Some Sample.timeout) ∧
  WithdrawCryptocurrencyFunds (Code := string) id Sample.Down.WithdrawCrypto
    Sample.withdrawal = ("", Some Sample.timeout) ∧
  (sample_GetOrderInfo (Sample.no_open_orders Sample.timeout) "42").2 =
    Some (errors_New "failed to get open orders").
Proof.
  destruct (transport_errors_surface (Pair := string) (Code := string)
              (Store := list (Price.t string))
              id Sample.NewPairDelimiter id "" id id Sample.EqualFold
              Sample.ToUpper Sample.ToLower Sample.ParseFloat Sample.ParseInt
              Sample.FormatInt (λ V, map_to_list) "GateIO" "_"
              (λ _, ["btc_usdt"]) (λ p _, p) false "generating"
              Sample.Down.GetTickers Sample.Down.GetOrderbook Sample.Down.GetBalances
              Sample.Down.wsGetBalance (Sample.no_open_orders Sample.timeout)
              (Sample.served [] Sample.timeout) Sample.Down.SpotNewOrder
              Sample.Down.CancelExistingOrder Sample.Down.CancelAllExistingOrders
              Sample.Down.GetCryptoDepositAddress Sample.Down.WithdrawCrypto
              Sample.Down.GetTradeHistory Sample.ProcessTicker Sample.GetTicker
              Sample.accept Sample.orderbook_Get Sample.accept (λ _, None)
              Sample.keep_all Sample.keep_side Sample.SplitFloatDecimals
              Sample.timeout)
    as (Hticker & Hbook & Haccount & Hsubmit & Hcancel & Hcancelall & Haddress &
        Hactive & Hhistory & Hwithdraw & Hinfo).
  split; [exact (Hticker eq_refl "btc_usdt" Spot sample_world)|].
  split; [exact (Hbook "btc_usdt" Spot sample_world eq_refl)|].
  split; [exact (Haccount eq_refl sample_world)|].
  split; [exact (Hsubmit Sample.submit eq_refl eq_refl)|].
  split; [exact (Hcancel Sample.cancel 42 eq_refl eq_refl)|].
  split; [exact (Hcancelall eq_refl Sample.cancel)|].
  split; [exact (Haddress "BTC" "" eq_refl)|].
  split; [exact (Hactive Sample.request 0%nat eq_refl)|].
  split.
  { apply (Hhistory down_request [] "btc_usdt" []); [reflexivity| |reflexivity].
    intros c' Hc'. by apply elem_of_nil in Hc'. }
  split; [exact (Hwithdraw Sample.withdrawal)|].
  exact (proj1 (Hinfo eq_refl "42")).
Defined.

(** C6 as stated fails: when the fetch of the open orders times out,
    [GetOrderInfo] returns an error of its own making instead of the
    timeout. *)
Lemma GetOrderInfo_error_counterexample :
  (Sample.no_open_orders Sample.timeout "").2 = Some Sample.timeout ∧
  (sample_GetOrderInfo (Sample.no_open_orders Sample.timeout) "42").2 =
    Some (errors_New "failed to get open orders") ∧
  (sample_GetOrderInfo (Sample.no_open_orders Sample.timeout) "42").2 ≠
    Some Sample.timeout.
Proof. split; [reflexivity|]. split; [reflexivity|]. vm_compute. discriminate. Qed.

(** ** The balances of the REST path on concrete payloads *)

Local Abbreviation sample_UpdateAccountInfo balances :=
  (UpdateAccountInfo (Pair := string) (Code := string) id Sample.ParseFloat
     (λ V, map_to_list) "GateIO" false (balances, None)
     Sample.Down.wsGetBalance Sample.accept sample_world).

(** C1, at an input on which the code breaks it.  The exchange reports
    0.5 BTC as locked and lists no available amount for BTC.  The account
    comes back with a single BTC record whose hold is 0.5 and whose total
    is 0: the total is not the hold plus the missing available amount, and
    it is below the hold. *)
Theorem UpdateAccountInfo_locked_only_total :
  ∃ b,
    (sample_UpdateAccountInfo
       {| BalancesResponse.Locked := jobject {["BTC" := jstring "0.5"]};
          BalancesResponse.Available := jobject ∅ |}).1 =
      Next {| Holdings.Exchange := "GateIO";
              Holdings.Accounts := [{| SubAccount.Currencies := [b] |}] |} ∧
    Balance.CurrencyName b = "BTC" ∧
    Balance.Hold b = 0.5%float ∧
    Balance.TotalValue b = 0%float ∧
    feq (Balance.TotalValue b) (Balance.Hold b + 0)%float = false ∧
    flt (Balance.TotalValue b) (Balance.Hold b) = true.
Proof. eexists. repeat split; vm_compute; reflexivity. Qed.

(** The example of the specification, in which every locked currency is
    listed as available too: BTC gets total 1.5 and hold 0.5, ETH total 2
    and hold 0. *)
Example UpdateAccountInfo_both_listed :
  ∃ btc eth,
    (sample_UpdateAccountInfo
       {| BalancesResponse.Locked := jobject {["BTC" := jstring "0.5"]};
          BalancesResponse.Available :=
            jobject {["BTC" := jstring "1.0"; "ETH" := jstring "2.0"]} |}).1 =
      Next {| Holdings.Exchange := "GateIO";
              Holdings.Accounts := [{| SubAccount.Currencies := [btc; eth] |}] |} ∧
    btc = {| Balance.CurrencyName := "BTC";
             Balance.TotalValue := 1.5; Balance.Hold := 0.5 |} ∧
    eth = {| Balance.CurrencyName := "ETH";
             Balance.TotalValue := 2; Balance.Hold := 0 |}.
Proof. do 2 eexists. repeat split; vm_compute; reflexivity. Qed.

(** ** More examples *)

Local Abbreviation locked_btc :=
  ({["BTC" := jstring "0.5"]} : gmap string jvalue).

Local Abbreviation available_btc_eth :=
  ({["BTC" := jstring "1.0"; "ETH" := jstring "2.0"]} : gmap string jvalue).

Local Abbreviation sample_rest_balances :=
  (rest_balances (Code := string) id Sample.ParseFloat (λ V, map_to_list)).

(** An entry of a concrete object: [found] settles each of its entries. *)
Ltac sample_entry H found :=
  repeat (apply lookup_insert_Some in H as [[_ <-]|[_ H]]; [found|]);
  first [apply lookup_singleton_Some in H as [_ <-]; found
        |by apply lookup_empty_Some in H].

Ltac sample_parses :=
  let H := fresh in
  intros ? ? H; sample_entry H ltac:(eexists; split; reflexivity).

Ltac sample_strings :=
  let H := fresh in
  intros ? ? H; sample_entry H ltac:(eexists; reflexivity).

(** 0.5 BTC locked; 1.0 BTC and 2.0 ETH available. *)
Lemma rest_balances_one_record_per_currency_witness :
  ∃ balances,
    sample_rest_balances
      {| BalancesResponse.Locked := jobject locked_btc;
         BalancesResponse.Available := jobject available_btc_eth |} = Next balances ∧
    NoDup (Balance.CurrencyName <$> balances) ∧
    ∀ c, c ∈ Balance.CurrencyName <$> balances ↔
         ∃ k, (is_Some (locked_btc !! k) ∨ is_Some (available_btc_eth !! k)) ∧ c = id k.
Proof.
  apply (rest_balances_one_record_per_currency (Code := string) id Sample.ParseFloat
           (λ V, map_to_list) (λ V m, Permutation_refl _) (λ k k' H, H)
           locked_btc available_btc_eth).
  - sample_parses.
  - sample_parses.
Defined.

(** BTC is listed by both objects, ETH by the available one only. *)
Lemma rest_balances_amounts_witness :
  (∃ balances,
     sample_rest_balances
       {| BalancesResponse.Locked := jobject locked_btc;
          BalancesResponse.Available := jobject available_btc_eth |} = Next balances ∧
     {| Balance.CurrencyName := id "BTC";
        Balance.TotalValue := (amount Sample.ParseFloat (jstring "0.5") +
                               amount Sample.ParseFloat (jstring "1.0"))%float;
        Balance.Hold := amount Sample.ParseFloat (jstring "0.5") |} ∈ balances) ∧
  (∃ balances,
     sample_rest_balances
       {| BalancesResponse.Locked := jobject locked_btc;
          BalancesResponse.Available := jobject available_btc_eth |} = Next balances ∧
     {| Balance.CurrencyName := id "ETH";
        Balance.TotalValue := amount Sample.ParseFloat (jstring "2.0");
        Balance.Hold := 0 |} ∈ balances).
Proof.
  split.
  - destruct (rest_balances_amounts (Code := string) id Sample.ParseFloat
                (λ V, map_to_list) (λ V m, Permutation_refl _) (λ k k' H, H)
                locked_btc available_btc_eth "BTC" ltac:(sample_parses) ltac:(sample_parses))
      as (balances & Hbalances & Hboth & _ & _).
    exists balances. split; [exact Hbalances|]. apply Hboth; reflexivity.
  - destruct (rest_balances_amounts (Code := string) id Sample.ParseFloat
                (λ V, map_to_list) (λ V m, Permutation_refl _) (λ k k' H, H)
                locked_btc available_btc_eth "ETH" ltac:(sample_parses) ltac:(sample_parses))
      as (balances & Hbalances & _ & Havailable & _).
    exists balances. split; [exact Hbalances|]. apply Havailable; reflexivity.
Defined.

Lemma rest_balances_keeps_holds_witness :
  ∃ unlocked,
    name_and_hold <$>
      [{| Balance.CurrencyName := "BTC"; Balance.TotalValue := 1.5; Balance.Hold := 0.5 |};
       {| Balance.CurrencyName := "ETH"; Balance.TotalValue := 2; Balance.Hold := 0 |}] =
      (((λ kv, (id kv.1, amount Sample.ParseFloat kv.2)) <$>
          entries (λ V, map_to_list)
            (BalancesResponse.Locked
               {| BalancesResponse.Locked := jobject locked_btc;
                  BalancesResponse.Available := jobject available_btc_eth |}))
       ++ unlocked)%list ∧
    Forall (λ x, x.2 = 0%float) unlocked.
Proof.
  apply (rest_balances_keeps_holds (Code := string) id Sample.ParseFloat (λ V, map_to_list)
           {| BalancesResponse.Locked := jobject locked_btc;
              BalancesResponse.Available := jobject available_btc_eth |}).
  vm_compute. reflexivity.
Defined.

Local Abbreviation available_bad :=
  ({["ETH" := jstring "n/a"]} : gmap string jvalue).

(** 0.5 BTC locked and an available ETH amount that is no number. *)
Lemma UpdateAccountInfo_parse_failure_witness :
  ∃ e k s,
    sample_UpdateAccountInfo
      {| BalancesResponse.Locked := jobject locked_btc;
         BalancesResponse.Available := jobject available_bad |} = (Raise e, sample_world) ∧
    (locked_btc !! k = Some (jstring s) ∨ available_bad !! k = Some (jstring s)) ∧
    (Sample.ParseFloat s).2 = Some e.
Proof.
  apply (UpdateAccountInfo_parse_failure (Pair := string) (Code := string)
           id Sample.ParseFloat (λ V, map_to_list) (λ V m, Permutation_refl _)
           "GateIO" false
           ({| BalancesResponse.Locked := jobject locked_btc;
               BalancesResponse.Available := jobject available_bad |}, None)
           Sample.Down.wsGetBalance Sample.accept locked_btc available_bad sample_world).
  - reflexivity.
  - reflexivity.
  - sample_strings.
  - sample_strings.
  - exists "ETH", (jstring "n/a"). split; [right; reflexivity|].
    intros (s & Hs & Hparse). injection Hs as <-. vm_compute in Hparse. discriminate.
Defined.

(** The websocket reports 1 BTC available and 0.5 BTC frozen. *)
Lemma UpdateAccountInfo_websocket_balances_witness :
  ∃ currencies,
    (UpdateAccountInfo (Pair := string) (Code := string) id Sample.ParseFloat
       (λ V, map_to_list) "GateIO" true Sample.Down.GetBalances
       (λ _, (Sample.ws_balances, None)) Sample.accept sample_world).1 =
      Next {| Holdings.Exchange := "GateIO";
              Holdings.Accounts := [{| SubAccount.Currencies := currencies |}] |} ∧
    length currencies = size (WsGetBalanceResponse.Result Sample.ws_balances) ∧
    ∀ b, b ∈ currencies ↔
         ∃ k v, WsGetBalanceResponse.Result Sample.ws_balances !! k = Some v ∧
                b = {| Balance.CurrencyName := id k;
                       Balance.TotalValue :=
                         (WsBalanceCurrency.Available v + WsBalanceCurrency.Freeze v)%float;
                       Balance.Hold := WsBalanceCurrency.Freeze v |}.
Proof.
  apply (UpdateAccountInfo_websocket_balances (Pair := string) (Code := string)
           id Sample.ParseFloat (λ V, map_to_list) (λ V m, Permutation_refl _)
           "GateIO" true Sample.Down.GetBalances
           (λ _, (Sample.ws_balances, None)) Sample.accept Sample.ws_balances sample_world).
  - reflexivity.
  - reflexivity.
  - reflexivity.
Defined.

Local Abbreviation btc_snapshot :=
  {| Holdings.Exchange := "GateIO";
     Holdings.Accounts :=
       [{| SubAccount.Currencies :=
             [{| Balance.CurrencyName := "BTC";
                 Balance.TotalValue := 1.5; Balance.Hold := 0.5 |}] |}] |}.

(** The websocket path again: the snapshot returned is the one processed. *)
Lemma UpdateAccountInfo_returns_processed_witness :
  Holdings.Exchange btc_snapshot = "GateIO" ∧
  length (Holdings.Accounts btc_snapshot) = 1%nat ∧
  Sample.accept btc_snapshot (store sample_world) =
    (store (UpdateAccountInfo (Pair := string) (Code := string) id Sample.ParseFloat
              (λ V, map_to_list) "GateIO" true Sample.Down.GetBalances
              (λ _, (Sample.ws_balances, None)) Sample.accept sample_world).2, None).
Proof.
  apply (UpdateAccountInfo_returns_processed (Pair := string) (Code := string)
           id Sample.ParseFloat (λ V, map_to_list) "GateIO" true Sample.Down.GetBalances
           (λ _, (Sample.ws_balances, None)) Sample.accept sample_world btc_snapshot).
  vm_compute. reflexivity.
Defined.

Local Abbreviation same_id_orders :=
  [Sample.open_order "1" "open" 5 0;
   Sample.open_order "42" "open" 10 4;
   Sample.open_order "42" "open" 1 2].

(** Two open orders with the id 42: the first one is reported. *)
Lemma GetOrderInfo_first_match_witness :
  sample_GetOrderInfo (Sample.open_orders same_id_orders) "42" =
    (order_info Sample.NewPairDelimiter Sample.EqualFold "GateIO" "_"
       (Sample.open_order "42" "open" 10 4), None).
Proof.
  apply (GetOrderInfo_first_match (Pair := string) Sample.NewPairDelimiter ""
           Sample.EqualFold "GateIO" "_" (Sample.open_orders same_id_orders) "42"
           {| OpenOrdersResponse.Orders := same_id_orders |}
           [Sample.open_order "1" "open" 5 0]
           (Sample.open_order "42" "open" 10 4)
           [Sample.open_order "42" "open" 1 2]).
  - reflexivity.
  - reflexivity.
  - intros o' Ho'. apply list_elem_of_singleton in Ho' as ->. discriminate.
  - reflexivity.
Defined.

(** No open order has the id 43. *)
Lemma GetOrderInfo_found_iff_witness :
  sample_GetOrderInfo (Sample.open_orders same_id_orders) "43" =
    ((zero_Detail ""), Some (fmt_Errorf ("no order found with id " ++ "43"))) ∧
  (sample_GetOrderInfo (Sample.open_orders same_id_orders) "42").2 = None.
Proof.
  split.
  - apply (GetOrderInfo_found_iff (Pair := string) Sample.NewPairDelimiter ""
             Sample.EqualFold "GateIO" "_" (Sample.open_orders same_id_orders) "43"
             {| OpenOrdersResponse.Orders := same_id_orders |} eq_refl).
    intros o Ho. cbn in Ho.
    repeat (apply elem_of_cons in Ho as [->|Ho]; [discriminate|]).
    by apply elem_of_nil in Ho.
  - apply (GetOrderInfo_found_iff (Pair := string) Sample.NewPairDelimiter ""
             Sample.EqualFold "GateIO" "_" (Sample.open_orders same_id_orders) "42"
             {| OpenOrdersResponse.Orders := same_id_orders |} eq_refl).
    exists (Sample.open_order "42" "open" 10 4). split; [|reflexivity].
    right. left.
Defined.

(** A page of three records, the second of which has no creation time. *)
Lemma GetActiveOrders_split_error_witness :
  sample_GetActiveOrders true (Sample.open_orders [])
      (Sample.served [[Sample.record 0 1; Sample.undated; Sample.record 1 1]]
                     Sample.timeout) 1 Sample.request =
    Some (map sample_translated [Sample.record 0 1],
          Some (upstream "strconv.ParseInt: invalid syntax")).
Proof.
  apply (GetActiveOrders_split_error (Pair := string)
           id Sample.NewPairDelimiter id Sample.ToUpper Sample.FormatInt "GateIO" "_"
           true (Sample.open_orders [])
           (Sample.served [[Sample.record 0 1; Sample.undated; Sample.record 1 1]]
                          Sample.timeout)
           Sample.keep_all Sample.keep_side Sample.SplitFloatDecimals
           Sample.request [Sample.record 0 1] Sample.undated [Sample.record 1 1]
           (0, 0) (upstream "strconv.ParseInt: invalid syntax") 0).
  - reflexivity.
  - vm_compute. reflexivity.
  - apply Forall_cons. split; [reflexivity|]. apply Forall_nil. exact I.
  - vm_compute. reflexivity.
Defined.

(** A source that always answers with 100 records: no result after a
    thousand iterations. *)
Lemma GetActiveOrders_endless_witness :
  sample_GetActiveOrders true (Sample.open_orders []) Sample.endless 1000 Sample.request =
    None.
Proof.
  apply (GetActiveOrders_endless (Pair := string)
           id Sample.NewPairDelimiter id Sample.ToUpper Sample.FormatInt "GateIO" "_"
           true (Sample.open_orders []) Sample.endless
           Sample.keep_all Sample.keep_side Sample.SplitFloatDecimals Sample.request).
  - reflexivity.
  - intros i. exists (replicate 100 (Sample.record 0 1)). split; [reflexivity|].
    split; [rewrite length_replicate; lia|apply Forall_replicate; reflexivity].
Defined.

(** The loop on pages of 100, 100 and 37 records. *)
Lemma ws_pages_calls_witness :
  (0 < length [(0, 100); (100, 100); (200, 100)])%nat ∧
  [(0, 100); (100, 100); (200, 100)] =
    offsets 0 (length [(0, 100); (100, 100); (200, 100)]) ∧
  ((100 * Z.of_nat (length [(0, 100); (100, 100); (200, 100)]) ≤ 2 ^ 63)%Z →
   [(0, 100); (100, 100); (200, 100)] =
     plain_offsets (length [(0, 100); (100, 100); (200, 100)])).
Proof.
  apply (ws_pages_calls (Pair := string) id Sample.FormatInt "GateIO"
           (Sample.served (Sample.pages_of [100; 100; 37]%nat) Sample.timeout)
           Sample.SplitFloatDecimals "LIMIT" 3
           (Break (map sample_translated
                     (concat (Sample.pages_of [100; 100; 37]%nat))))
           [(0, 100); (100, 100); (200, 100)]).
  vm_compute. reflexivity.
Defined.

(** Two currencies in the request, on the REST path. *)
Lemma GetActiveOrders_currency_filter_witness :
  sample_GetActiveOrders false (Sample.open_orders three_orders)
      (Sample.served [] Sample.timeout) 0
      (with_currencies Sample.request ["btc_usdt"; "eth_btc"]) =
    sample_GetActiveOrders false (Sample.open_orders three_orders)
      (Sample.served [] Sample.timeout) 0 (with_currencies Sample.request []).
Proof.
  apply (GetActiveOrders_currency_filter (Pair := string)
           id Sample.NewPairDelimiter id Sample.ToUpper Sample.FormatInt "GateIO" "_"
           false (Sample.open_orders three_orders) (Sample.served [] Sample.timeout)
           Sample.keep_all Sample.keep_side Sample.SplitFloatDecimals
           Sample.request ["btc_usdt"; "eth_btc"] 0).
  right. simpl. lia.
Defined.

(** The history of two pairs: one trade each, in the order requested. *)
Lemma GetOrderHistory_all_fetched_witness :
  GetOrderHistory (Pair := string) id Sample.NewPairDelimiter Sample.ToUpper
      Sample.FormatInt "GateIO" "_" Sample.GetTradeHistory
      Sample.keep_all Sample.keep_side
      (with_currencies Sample.request ["eth_btc"; "btc_usdt"]) =
    (filtered Sample.keep_all Sample.keep_side
       (with_currencies Sample.request ["eth_btc"; "btc_usdt"])
       (map (trade_detail Sample.NewPairDelimiter Sample.ToUpper Sample.FormatInt "GateIO" "_")
          (trades_of id Sample.GetTradeHistory
             (GetOrdersRequest.Currencies
                (with_currencies Sample.request ["eth_btc"; "btc_usdt"])))), None) ∧
  map Detail.CurrencyPair
    (GetOrderHistory (Pair := string) id Sample.NewPairDelimiter Sample.ToUpper
       Sample.FormatInt "GateIO" "_" Sample.GetTradeHistory
       Sample.keep_all Sample.keep_side
       (with_currencies Sample.request ["eth_btc"; "btc_usdt"])).1 = ["eth_btc"; "btc_usdt"].
Proof.
  split; [|vm_compute; reflexivity].
  apply (GetOrderHistory_all_fetched (Pair := string) id Sample.NewPairDelimiter
           Sample.ToUpper Sample.FormatInt "GateIO" "_" Sample.GetTradeHistory
           Sample.keep_all Sample.keep_side
           (with_currencies Sample.request ["eth_btc"; "btc_usdt"])).
  intros c _. reflexivity.
Defined.

Local Abbreviation sample_SubmitOrder transport validate :=
  (SubmitOrder (Pair := string) id Sample.ToLower Sample.FormatInt transport validate).

(** An ask order on a transport that is down: not placed, and it would
    have been sent as a sell. *)
Lemma SubmitOrder_placed_iff_witness :
  (sample_SubmitOrder Sample.Down.SpotNewOrder (λ _, None)
     {| Submit.Pair := "btc_usdt"; Submit.OrderSide := Ask;
        Submit.Price := 9000; Submit.Amount := 1 |}).1 = zero_SubmitResponse ∧
  SpotNewOrderRequestParams.Type_
    (spotNewOrderRequestParams (Pair := string) id Sample.ToLower
       {| Submit.Pair := "btc_usdt"; Submit.OrderSide := Ask;
          Submit.Price := 9000; Submit.Amount := 1 |}) = Sample.ToLower Sell.
Proof.
  destruct (SubmitOrder_placed_iff (Pair := string) id Sample.ToLower Sample.FormatInt
              Sample.Down.SpotNewOrder (λ _, None)
              {| Submit.Pair := "btc_usdt"; Submit.OrderSide := Ask;
                 Submit.Price := 9000; Submit.Amount := 1 |})
    as (_ & _ & Hzero & Hsell).
  split; [apply Hzero; discriminate|apply Hsell; discriminate].
Defined.

(** The exchange answers with the placeholder, then with an address. *)
Lemma GetDepositAddress_never_placeholder_witness :
  (GetDepositAddress (Code := string) id "generating"
     (λ _, ("generating", None)) "BTC" "").1 = "" ∧
  ((GetDepositAddress (Code := string) id "generating"
      (λ _, ("1A1zP1", None)) "BTC" "").1 ≠ "generating" ∧
   (λ _ : string, ("1A1zP1", @None error)) (id "BTC") =
     ((GetDepositAddress (Code := string) id "generating"
         (λ _, ("1A1zP1", None)) "BTC" "").1, None)).
Proof.
  split.
  - apply (GetDepositAddress_never_placeholder (Code := string) id "generating"
             (λ _, ("generating", None)) "BTC" ""). discriminate.
  - apply (GetDepositAddress_never_placeholder (Code := string) id "generating"
             (λ _, ("1A1zP1", None)) "BTC" ""). reflexivity.
Defined.

Local Abbreviation sample_UpdateOrderbook :=
  (UpdateOrderbook (Pair := string) (Store := list (Price.t string)) id "" "GateIO"
     (λ p _, p) (λ _, (Sample.snapshot, None)) Sample.accept Sample.orderbook_Get).

(** A snapshot with two bids and one ask. *)
Lemma UpdateOrderbook_translates_witness :
  ∃ book,
    (∀ i, Base.Bids book !! i =
          (λ x, {| Item.Amount := OrderbookItem.Amount x;
                   Item.Price := OrderbookItem.Price x |}) <$>
            Orderbook.Bids Sample.snapshot !! i) ∧
    (∀ i, Base.Asks book !! i =
          (λ x, {| Item.Amount := OrderbookItem.Amount x;
                   Item.Price := OrderbookItem.Price x |}) <$>
            Orderbook.Asks Sample.snapshot !! i) ∧
    Base.Pair book = "btc_usdt" ∧ Base.ExchangeName book = "GateIO" ∧
    Base.AssetType book = Spot ∧
    store (sample_UpdateOrderbook "btc_usdt" Spot sample_world).2 =
      (Sample.accept book (store sample_world)).1 ∧
    (∀ e, (Sample.accept book (store sample_world)).2 = Some e →
          (sample_UpdateOrderbook "btc_usdt" Spot sample_world).1 = (book, Some e)) ∧
    ((Sample.accept book (store sample_world)).2 = None →
     (sample_UpdateOrderbook "btc_usdt" Spot sample_world).1 =
       Sample.orderbook_Get "GateIO" "btc_usdt" Spot
         (Sample.accept book (store sample_world)).1).
Proof.
  apply (UpdateOrderbook_translates (Pair := string) (Store := list (Price.t string))
           id "" "GateIO" (λ p _, p) (λ _, (Sample.snapshot, None))
           Sample.accept Sample.orderbook_Get "btc_usdt" Spot sample_world Sample.snapshot).
  reflexivity.
Defined.

Local Abbreviation cached_world :=
  (Build_World (Pair := string) (Store := list (Price.t string))
     [ticker_of (Sample.ticker 2) "btc_usdt"] [] []).

Local Abbreviation rejecting_UpdateTicker :=
  (UpdateTicker (Pair := string) (Store := list (Price.t string))
     id "" Sample.EqualFold (λ V, map_to_list) "GateIO" (λ _, ["btc_usdt"])
     (one_ticker, None) Sample.reject Sample.GetTicker).


(** Two open orders on one pair, and a cancellation that succeeds. *)
Lemma CancelAllOrders_status_empty_iff_witness :
  CancelAllResponse.Status
    (sample_CancelAllOrders (Sample.open_orders two_orders) (λ _ _, None)).1 = ∅.
Proof.
  apply (CancelAllOrders_status_empty_iff (Pair := string)
           (λ V, map_to_list) (λ V m, Permutation_refl _)
           (Sample.open_orders two_orders) (λ _ _, None) Sample.cancel
           {| OpenOrdersResponse.Orders := two_orders |} eq_refl).
  reflexivity.
Defined.

(** Fee types numbered as in package [exchange]: 3 is the cryptocurrency
    trade fee and 6 the offline trade fee. *)
Lemma GetFeeByType_offline_witness :
  (GetFeeByType (fee_fields := unit) 3%nat 6%nat false Sample.flat_fee
     {| FeeType := 3%nat; other_fields := tt |}).1 =
    Sample.flat_fee (GetFeeByType (fee_fields := unit) 3%nat 6%nat false Sample.flat_fee
                       {| FeeType := 3%nat; other_fields := tt |}).2 ∧
  FeeType (GetFeeByType (fee_fields := unit) 3%nat 6%nat false Sample.flat_fee
             {| FeeType := 3%nat; other_fields := tt |}).2 = 6%nat ∧
  (GetFeeByType (fee_fields := unit) 3%nat 6%nat false Sample.flat_fee
     {| FeeType := 0%nat; other_fields := tt |}).2 =
    {| FeeType := 0%nat; other_fields := tt |}.
Proof.
  destruct (GetFeeByType_offline (fee_fields := unit) 3%nat 6%nat false Sample.flat_fee
              {| FeeType := 3%nat; other_fields := tt |} ltac:(discriminate))
    as (Hfee & _ & Hoffline & _).
  destruct (GetFeeByType_offline (fee_fields := unit) 3%nat 6%nat false Sample.flat_fee
              {| FeeType := 0%nat; other_fields := tt |} ltac:(discriminate))
    as (_ & _ & _ & Hsame).
  split; [exact Hfee|]. split.
  - apply (proj2 (Hoffline eq_refl)). reflexivity.
  - apply Hsame. right. discriminate.
Defined.
